(** * The ProximaX upload service and the NEM announce result

    A shallow embedding of
    [projects/xpx-typescript-angular-sdk/src/model/nem-announce-resource.ts]
    (the enumeration [TypeNemAnnounceResult], the code type
    [CodeNemAnnounceResult] with its documented table, the class
    [NemAnnounceResult]) and of the class [RemoteUploadService] that follows
    it in the same file: [uploadTextToIPFS], [uploadText],
    [uploadTextToIFPSOnly], [uploadBinaryToIPFS], [uploadBinary] and
    [uploadBinaryToIPFSOnly].

    JavaScript values are a small universal type; request records are objects
    in a heap (a finite map from locations to finite maps from field names to
    values), because [uploadTextToIPFS] assigns to a field of the record it is
    handed.  A method call is a state transformer over the heap and a trace of
    the calls made to the outside world; it either returns or throws.  The
    value it returns, an RxJS observable, is cold: it is a second state
    transformer, run when the caller subscribes. *)

From Stdlib Require Import ZArith List Ascii String.
From stdpp Require Import base option gmap strings list pretty.

Open Scope string_scope.
Open Scope Z_scope.
Open Scope list_scope.

(** ** Types of the libraries the service is linked with *)

(** The classes behind these three types are declared outside this file
    ([model/resource-hash-message], [model/signed-transaction],
    [./hash-data]); nothing here looks inside them. *)
Class HostTypes : Type := {
  ResourceHashMessage : Type;
  SignedTransaction : Type;
  NemHash : Type
}.

(** ** nem-announce-resource.ts *)

(** [export enum TypeNemAnnounceResult { Validation = 1, HeartBeat = 2, Status = 4 }] *)
Inductive TypeNemAnnounceResult : Set :=
| Validation
| HeartBeat
| Status.

(** The number a member of the enumeration is at run time. *)
Definition TypeNemAnnounceResult_value (t : TypeNemAnnounceResult) : Z :=
  match t with
  | Validation => 1
  | HeartBeat => 2
  | Status => 4
  end.

(** The reverse mapping of a numeric enumeration. *)
Definition TypeNemAnnounceResult_of_value (n : Z) : option TypeNemAnnounceResult :=
  if n =? 1 then Some Validation
  else if n =? 2 then Some HeartBeat
  else if n =? 4 then Some Status
  else None.

(** [export type CodeNemAnnounceResult = 0 | 1 | ... | 19]: the numbers the
    union type admits. *)
Definition CodeNemAnnounceResult_members : list Z :=
  [0; 1; 2; 3; 4; 5; 6; 7; 8; 9; 10; 11; 12; 13; 14; 15; 16; 17; 18; 19].

Definition is_CodeNemAnnounceResult (c : Z) : bool :=
  bool_decide (c ∈ CodeNemAnnounceResult_members).

(** The table of the doc comment above [CodeNemAnnounceResult], transcribed
    section by section: each section is headed "For type N" and lists
    "code: meaning" lines. *)
Definition documented_codes : list (Z * list (Z * string)) :=
  [ (1,
     [ (0, "Neutral result. A typical example would be that a node validates an incoming transaction and realizes that it already knows about the transaction. In this case it is neither a success (meaning the node has a new transaction) nor a failure (because the transaction itself is valid).");
       (1, "Success result. A typical example would be that a node validates a new valid transaction.");
       (2, "Unknown failure. The validation failed for unknown reasons.");
       (3, "The entity that was validated has already past its deadline.");
       (4, "The entity used a deadline which lies too far in the future.");
       (5, "There was an account involved which had an insufficient balance to perform the operation.");
       (6, "The message supplied with the transaction is too large.");
       (7, "The hash of the entity which got validated is already in the database.");
       (8, "The signature of the entity could not be validated.");
       (9, "The entity used a timestamp that lies too far in the past.");
       (10, "The entity used a timestamp that lies in the future which is not acceptable.");
       (11, "The entity is unusable.");
       (12, "The score of the remote block chain is inferior (although a superior score was promised).");
       (13, "The remote block chain failed validation.");
       (14, "There was a conflicting importance transfer detected.");
       (15, "There were too many transaction in the supplied block.");
       (16, "The block contains a transaction that was signed by the harvester.");
       (17, "A previous importance transaction conflicts with a new transaction.");
       (18, "An importance transfer activation was attempted while previous one is active.");
       (19, "An importance transfer deactivation was attempted but is not active.") ]);
    (2,
     [ (1, "Successful heart beat detected.") ]);
    (3,
     [ (0, "Unknown status.");
       (1, "NIS is stopped.");
       (2, "NIS is starting.");
       (3, "NIS is running.");
       (4, "NIS is booting the local node (implies NIS is running).");
       (5, "The local node is booted (implies NIS is running).");
       (6, "The local node is synchronized (implies NIS is running and the local node is booted).");
       (7, "There is no remote node available (implies NIS is running and the local node is booted).");
       (8, "NIS is currently loading the block chain.") ]) ].

(** Looking a key up in an association list, first entry first. *)
Fixpoint assoc {A : Type} (k : Z) (l : list (Z * A)) : option A :=
  match l with
  | [] => None
  | (k', a) :: rest => if k =? k' then Some a else assoc k rest
  end.


Definition documented_meaning (type code : Z) : option string :=
  match assoc type documented_codes with
  | Some section => assoc code section
  | None => None
  end.

Section Values.
Context `{HostTypes}.

(** [export class NemAnnounceResult]: five [public readonly] fields set by
    the constructor. *)
Record NemAnnounceResult : Type := {
  type : TypeNemAnnounceResult;
  code : Z;
  message : string;
  transactionHash : NemHash;
  innerTransactionHash : NemHash
}.

(** ** JavaScript values *)

Definition loc := positive.

Inductive JsVal : Type :=
| VUndefined
| VNull
| VBool (b : bool)
| VNum (n : Z)
| VStr (s : string)
| VRef (l : loc)                       (* an object in the heap *)
| VError (name message : string)       (* [new Error(message)] and its kin *)
| VResponse (status : Z) (body : JsVal) (* Angular's [HttpResponse] *)
| VResourceHash (m : ResourceHashMessage)
| VAnnounceResult (r : NemAnnounceResult).

(** A call returns or throws. *)
Inductive Result (A : Type) : Type :=
| Return (a : A)
| Throw (e : JsVal).

(** [new HttpHeaders({...})] and the options of [HttpClient.post]. *)
Record HttpRequest : Type := {
  url : string;
  req_body : string;
  headers : list (string * string);
  responseType : string;
  observe : string;
  reportProgress : bool
}.

(** What the caller of the service can see it do to the outside world. *)
Inductive Event : Type :=
| EvConsoleLog (line : string)
| EvHttpPost (req : HttpRequest)
| EvSignTransaction (content senderPrivateKey recieverPublicKey messageType : JsVal)
| EvAnnounceTransaction (tx : SignedTransaction).

Record World : Type := {
  heap : gmap loc (gmap string JsVal);
  trace : list Event
}.

(** A method body: it runs in a world, returns or throws, and leaves a
    world. *)
Definition M (A : Type) : Type := World → Result A * World.

(** What a subscriber is told: the values of the [next] calls, in order,
    then [complete] or [error]. *)
Inductive Completion : Type :=
| Completed
| Errored (e : JsVal).

Record Notifications : Type := {
  emitted : list JsVal;
  completion : Completion
}.

(** A cold observable: nothing happens until it is subscribed to; the
    subscription runs in the world of that moment. *)
Definition Observable : Type := World → Notifications * World.

(** [flatbuffers.ByteBuffer]: the bytes and a read position, 0 when built. *)
Record ByteBuffer : Type := {
  bytes_ : list Byte.byte;
  position_ : Z
}.

(** [RemoteTransactionAnnounceService], as far as this file sees it: an
    object built from the base URL and the network. *)
Record RemoteTransactionAnnounceService : Type := {
  ann_baseUrl : string;
  ann_nemNetwork : Z
}.
End Values.

Arguments Return {_ _} a.
Arguments Throw {_ _} e.

(** ** The collaborators

    Everything the service calls and this file does not define: Angular's
    [HttpClient], the browser's [btoa] and [JSON.stringify], [decode] of
    typescript-base64-arraybuffer, the flatbuffers reader generated for
    [ResourceHashMessage], the two methods of
    [RemoteTransactionAnnounceService], [Helpers.isJSONString], and the
    constant [NetworkTypes.TEST_NET] of nem-library.  They are parameters:
    every theorem below holds whatever they answer. *)
Inductive HttpOutcome `{HostTypes} : Type :=
| HttpOk (status : Z) (body : JsVal)   (* one [HttpResponse], then [complete] *)
| HttpFail (err : JsVal).              (* [error] *)

Class Collaborators `{HostTypes} : Type := {
  (** [this.http.post(endpoint, body, options)], once subscribed to. With
      [observe: 'response'] the client reports the final response only. *)
  http_backend : HttpRequest → HttpOutcome;
  (** [btoa(x)]; it throws on a character above U+00FF. *)
  btoa : JsVal → Result string;
  (** [JSON.stringify(x)] for a value [x] whose objects are in the heap. *)
  JSON_stringify : gmap loc (gmap string JsVal) → JsVal → string;
  (** [Helpers.isJSONString(x)]. *)
  isJSONString : JsVal → bool;
  (** [decode(x)]: base64 text to an [ArrayBuffer]. *)
  decode : JsVal → Result (list Byte.byte);
  (** [ResourceHashMessage.getRootAsResourceHashMessage(bb)]. *)
  getRootAsResourceHashMessage : ByteBuffer → Result ResourceHashMessage;
  (** [service.signTransaction(content, privateKey, publicKey, messageType)]. *)
  signTransaction :
    RemoteTransactionAnnounceService → JsVal → JsVal → JsVal → JsVal →
    Result SignedTransaction;
  (** [service.announceTransaction(tx)]: the call itself may throw; the
      observable it returns tells its subscriber this. *)
  announceTransaction :
    RemoteTransactionAnnounceService → SignedTransaction → Result Notifications;
  (** The error [Helpers.handleError] hands on for the error it is given. *)
  wrapError : JsVal → JsVal;
  (** [NetworkTypes.TEST_NET]. *)
  TEST_NET : Z
}.

Section Service.
Context `{Collaborators}.

(** *** The method monad *)

Definition ret {A : Type} (a : A) : M A := fun w => (Return a, w).

Definition throw {A : Type} (e : JsVal) : M A := fun w => (Throw e, w).

Definition bind {A B : Type} (m : M A) (k : A → M B) : M B :=
  fun w =>
    match m w with
    | (Return a, w') => k a w'
    | (Throw e, w') => (Throw e, w')
    end.

Definition lift {A : Type} (r : Result A) : M A := fun w => (r, w).

Definition emit_event (ev : Event) : M unit :=
  fun w => (Return (), {| heap := heap w; trace := trace w ++ [ev] |}).

Definition read_heap : M (gmap loc (gmap string JsVal)) :=
  fun w => (Return (heap w), w).

#[global] Instance M_ret : MRet M := @ret.
#[global] Instance M_bind : MBind M := fun A B k m => bind m k.
End Service.

Section ServiceBody.
Context `{Collaborators}.

(** *** The JavaScript operations the methods use *)

(** [new Error(message)] *)
Definition new_Error (message : string) : JsVal := VError "Error" message.

(** The fields of the object at [l]; a location never allocated holds an
    object without fields. *)
Definition object_at (h : gmap loc (gmap string JsVal)) (l : loc) : gmap string JsVal :=
  default ∅ (h !! l).

(** What [x.name] reads where it reads at all: on an object the field,
    [undefined] when it has none of that name; a response has its [body]
    and [status]; the other values have none of the names read here. *)
Definition prop_value (h : gmap loc (gmap string JsVal)) (x : JsVal) (name : string)
    : JsVal :=
  match x with
  | VRef l => default VUndefined (object_at h l !! name)
  | VResponse status body =>
      if String.eqb name "body" then body
      else if String.eqb name "status" then VNum status
      else VUndefined
  | _ => VUndefined
  end.

(** [x.name]: a [TypeError] on [null] and [undefined]. *)
Definition get_prop (x : JsVal) (name : string) : M JsVal :=
  fun w =>
    match x with
    | VUndefined =>
        (Throw (VError "TypeError" ("Cannot read property '" +:+ name +:+ "' of undefined")), w)
    | VNull =>
        (Throw (VError "TypeError" ("Cannot read property '" +:+ name +:+ "' of null")), w)
    | _ => (Return (prop_value (heap w) x name), w)
    end.

(** [x.name = v] in strict mode: on an object the field is written, on
    anything else the assignment throws. *)
Definition set_prop (x : JsVal) (name : string) (v : JsVal) : M unit :=
  fun w =>
    match x with
    | VRef l =>
        (Return (),
         {| heap := <[l := <[name := v]> (object_at (heap w) l)]> (heap w);
            trace := trace w |})
    | _ =>
        (Throw (VError "TypeError" ("Cannot create property '" +:+ name +:+ "'")), w)
    end.

(** [console.log(line)] *)
Definition console_log (line : string) : M unit := emit_event (EvConsoleLog line).

(** [JSON.stringify(x)] *)
Definition stringify (x : JsVal) : M string :=
  h ← read_heap; ret (JSON_stringify h x).

(** *** RxJS *)

(** [this.http.post(url, body, options)]: the request goes out when the
    observable is subscribed to. *)
Definition http_post (req : HttpRequest) : Observable :=
  fun w =>
    let w' := {| heap := heap w; trace := trace w ++ [EvHttpPost req] |} in
    match http_backend req with
    | HttpOk status body =>
        ({| emitted := [VResponse status body]; completion := Completed |}, w')
    | HttpFail err =>
        ({| emitted := []; completion := Errored err |}, w')
    end.

(** [throwError(e)] *)
Definition throwError (e : JsVal) : Observable :=
  fun w => ({| emitted := []; completion := Errored e |}, w).

(** [source.pipe(map(project))]: a [project] that throws turns into
    [error] and ends the subscription. *)
Fixpoint map_values (project : JsVal → M JsVal) (vs : list JsVal)
    (last : Completion) (w : World) : Notifications * World :=
  match vs with
  | [] => ({| emitted := []; completion := last |}, w)
  | v :: rest =>
      match project v w with
      | (Throw e, w1) => ({| emitted := []; completion := Errored e |}, w1)
      | (Return v', w1) =>
          let '(n, w2) := map_values project rest last w1 in
          ({| emitted := v' :: emitted n; completion := completion n |}, w2)
      end
  end.

Definition rx_map (project : JsVal → M JsVal) (source : Observable) : Observable :=
  fun w =>
    let '(n, w') := source w in
    map_values project (emitted n) (completion n) w'.

(** [source.pipe(catchError(selector))]: on [error] the subscriber is moved
    to the observable [selector] returns. *)
Definition rx_catchError (selector : JsVal → Observable) (source : Observable) : Observable :=
  fun w =>
    let '(n, w') := source w in
    match completion n with
    | Completed => (n, w')
    | Errored e =>
        let '(n2, w'') := selector e w' in
        ({| emitted := emitted n ++ emitted n2; completion := completion n2 |}, w'')
    end.

(** [source.pipe(switchMap(project))]: for each value of [source],
    [project] is called and the observable it returns is subscribed to; a
    [project] that throws, or an inner [error], ends the subscription.  The
    inner observables here have answered by the time the next value comes,
    so none is ever cut short. *)
Fixpoint switch_values (project : JsVal → M Observable) (vs : list JsVal)
    (last : Completion) (w : World) : Notifications * World :=
  match vs with
  | [] => ({| emitted := []; completion := last |}, w)
  | v :: rest =>
      match project v w with
      | (Throw e, w1) => ({| emitted := []; completion := Errored e |}, w1)
      | (Return inner, w1) =>
          let '(ni, w2) := inner w1 in
          match completion ni with
          | Errored e => ({| emitted := emitted ni; completion := Errored e |}, w2)
          | Completed =>
              let '(nr, w3) := switch_values project rest last w2 in
              ({| emitted := emitted ni ++ emitted nr; completion := completion nr |}, w3)
          end
      end
  end.

Definition rx_switchMap (project : JsVal → M Observable) (source : Observable) : Observable :=
  fun w =>
    let '(n, w') := source w in
    switch_values project (emitted n) (completion n) w'.

(** *** The service *)

(** The fields of [RemoteUploadService]; [http] is the backend of the
    collaborators. *)
Record RemoteUploadService : Type := {
  baseUrl : string;
  nemNetwork : Z;
  announceService : RemoteTransactionAnnounceService
}.

Definition new_RemoteTransactionAnnounceService (baseUrl : string) (nemNetwork : Z)
    : RemoteTransactionAnnounceService :=
  {| ann_baseUrl := baseUrl; ann_nemNetwork := nemNetwork |}.

(** The constructor: each injected value replaces the default when it is
    truthy ([None] is an injection that found nothing). *)
Definition new_RemoteUploadService (baseUrl : option string) (netNetwork : option Z)
    : RemoteUploadService :=
  let this_baseUrl :=
    match baseUrl with
    | Some b => if String.eqb b EmptyString then "https://testnet2.gateway.proximax.io/" else b
    | None => "https://testnet2.gateway.proximax.io/"
    end in
  let this_nemNetwork :=
    match netNetwork with
    | Some n => if n =? 0 then TEST_NET else n
    | None => TEST_NET
    end in
  {| baseUrl := this_baseUrl;
     nemNetwork := this_nemNetwork;
     announceService := new_RemoteTransactionAnnounceService this_baseUrl this_nemNetwork |}.

(** [x === null], [x === undefined], [x === ''] *)
Definition is_null (x : JsVal) : bool :=
  match x with VNull => true | _ => false end.

Definition is_undefined (x : JsVal) : bool :=
  match x with VUndefined => true | _ => false end.

Definition is_empty_string (x : JsVal) : bool :=
  match x with VStr s => String.eqb s EmptyString | _ => false end.

(** The messages of the checks at the head of the upload methods. *)
Definition msg_payload_null : string := "The request payload could not be null".
Definition msg_text_required : string := "The request payload 'text' field is required".
Definition msg_data_required : string := "The request payload 'data' field is required".
Definition msg_metadata_json : string :=
  "The request payload 'metadata' field must be a valid JSON".

(** [new HttpHeaders({ 'Content-Type': 'application/json', Accept: '*/*' })] *)
Definition upload_headers : list (string * string) :=
  [("Content-Type", "application/json"); ("Accept", "*/*")].

(** The options both upload methods post with. *)
Definition upload_request (endpoint bodyData : string) : HttpRequest :=
  {| url := endpoint;
     req_body := bodyData;
     headers := upload_headers;
     responseType := "text";
     observe := "response";
     reportProgress := true |}.

(** [new flatbuffers.ByteBuffer(data)] *)
Definition new_ByteBuffer (data : list Byte.byte) : ByteBuffer :=
  {| bytes_ := data; position_ := 0 |}.

(** The function both upload methods hand to [map]. *)
Definition read_resource_hash (res : JsVal) : M JsVal :=
  body ← get_prop res "body";
  data ← lift (decode body);
  let dataBuffer := new_ByteBuffer data in
  resourceHash ← lift (getRootAsResourceHashMessage dataBuffer);
  mret (VResourceHash resourceHash).

(** Modelled from the spec: [Helpers.handleError] (utils/helpers is not
    part of this file).  The spec has transport errors "surfaced through
    the error channel of the asynchronous result, wrapped by a shared
    error-handling function": the handler answers with an observable that
    fails with the wrapped error. *)
Definition handleError (e : JsVal) : Observable := throwError (wrapError e).

(** [private uploadTextToIPFS(payload, returnHash)] *)
Definition uploadTextToIPFS (this : RemoteUploadService) (payload : JsVal)
    (returnHash : bool) : M Observable :=
  let endpoint := baseUrl this +:+ "upload/text" in
  (if is_null payload then throw (new_Error msg_payload_null)
   else
     text ← get_prop payload "text";
     if is_null text || is_undefined text || is_empty_string text
     then throw (new_Error msg_text_required)
     else
       metadata ← get_prop payload "metadata";
       if negb (isJSONString metadata)
       then throw (new_Error msg_metadata_json)
       else mret ());;
  text ← get_prop payload "text";
  encodedData ← lift (btoa text);
  set_prop payload "text" (VStr encodedData);;
  bodyData ← stringify payload;
  console_log bodyData;;
  if negb returnHash
  then mret (http_post (upload_request endpoint bodyData))
  else mret (rx_catchError handleError
               (rx_map read_resource_hash
                  (http_post (upload_request endpoint bodyData)))).

(** [service.signTransaction(...)] and [service.announceTransaction(tx)],
    each noted in the trace when it is called. *)
Definition call_signTransaction (service : RemoteTransactionAnnounceService)
    (content senderPrivateKey recieverPublicKey messageType : JsVal)
    : M SignedTransaction :=
  emit_event (EvSignTransaction content senderPrivateKey recieverPublicKey messageType);;
  lift (signTransaction service content senderPrivateKey recieverPublicKey messageType).

Definition call_announceTransaction (service : RemoteTransactionAnnounceService)
    (tx : SignedTransaction) : M Observable :=
  emit_event (EvAnnounceTransaction tx);;
  n ← lift (announceTransaction service tx);
  mret ((fun w => (n, w)) : Observable).

(** The function [uploadText] and [uploadBinary] hand to [switchMap]. *)
Definition sign_and_announce (service : RemoteTransactionAnnounceService)
    (payload rhm : JsVal) : M Observable :=
  content ← get_prop rhm "body";
  senderPrivateKey ← get_prop payload "senderPrivateKey";
  recieverPublicKey ← get_prop payload "recieverPublicKey";
  messageType ← get_prop payload "messageType";
  signTransaction ← call_signTransaction service content senderPrivateKey
                      recieverPublicKey messageType;
  call_announceTransaction service signTransaction.

(** [public uploadText(payload)] *)
Definition uploadText (this : RemoteUploadService) (payload : JsVal) : M Observable :=
  source ← uploadTextToIPFS this payload false;
  mret (rx_switchMap (sign_and_announce (announceService this) payload) source).

(** [public uploadTextToIFPSOnly(payload)] *)
Definition uploadTextToIFPSOnly (this : RemoteUploadService) (payload : JsVal)
    : M Observable :=
  uploadTextToIPFS this payload true.

(** [private uploadBinaryToIPFS(payload, returnHash)] *)
Definition uploadBinaryToIPFS (this : RemoteUploadService) (payload : JsVal)
    (returnHash : bool) : M Observable :=
  let endpoint := baseUrl this +:+ "upload/bytes/binary" in
  (if is_null payload then throw (new_Error msg_payload_null)
   else
     data ← get_prop payload "data";
     if is_null data
     then throw (new_Error msg_data_required)
     else
       metadata ← get_prop payload "metadata";
       if negb (isJSONString metadata)
       then throw (new_Error msg_metadata_json)
       else mret ());;
  bodyData ← stringify payload;
  if negb returnHash
  then mret (http_post (upload_request endpoint bodyData))
  else mret (rx_catchError handleError
               (rx_map read_resource_hash
                  (http_post (upload_request endpoint bodyData)))).

(** [public uploadBinary(payload)] *)
Definition uploadBinary (this : RemoteUploadService) (payload : JsVal) : M Observable :=
  let trxService :=
    new_RemoteTransactionAnnounceService (baseUrl this) (nemNetwork this) in
  source ← uploadBinaryToIPFS this payload false;
  mret (rx_switchMap (sign_and_announce trxService payload) source).

(** [public uploadBinaryToIPFSOnly(payload)] *)
Definition uploadBinaryToIPFSOnly (this : RemoteUploadService) (payload : JsVal)
    : M Observable :=
  uploadBinaryToIPFS this payload true.

(** A caller that calls a method and subscribes to what it returns: the
    call throws, or the subscriber is notified. *)
Definition call_and_subscribe (method : M Observable) (w : World)
    : Result Notifications * World :=
  match method w with
  | (Throw e, w1) => (Throw e, w1)
  | (Return observable, w1) =>
      let '(n, w2) := observable w1 in (Return n, w2)
  end.
End ServiceBody.

(** ** Stand-ins for the collaborators

    Executable stand-ins, used where a statement is to be run on a concrete
    request: base64 as RFC 4648 has it, a backend that answers what it is
    told to answer, a signer and an announcer that can be told apart in the
    result.  No theorem about the service depends on them. *)
Module Base64.
Definition alphabet : list ascii :=
  list_ascii_of_string
    "ABCDEFGHIJKLMNOPQRSTUVWXYZabcdefghijklmnopqrstuvwxyz0123456789+/".

Definition sextet_char (n : N) : ascii :=
  nth (N.to_nat n) alphabet "="%char.

Fixpoint index_of (c : ascii) (l : list ascii) (i : N) : option N :=
  match l with
  | [] => None
  | c' :: rest => if Ascii.eqb c c' then Some i else index_of c rest (N.succ i)
  end.

Definition char_sextet (c : ascii) : option N := index_of c alphabet 0%N.

(** Three bytes make four characters; one or two bytes left over are
    padded with [=]. *)
Fixpoint encode_N (bs : list N) : list ascii :=
  match bs with
  | [] => []
  | [a] =>
      [sextet_char (a / 4); sextet_char ((a mod 4) * 16); "="%char; "="%char]
  | [a; b] =>
      [sextet_char (a / 4); sextet_char ((a mod 4) * 16 + b / 16);
       sextet_char ((b mod 16) * 4); "="%char]
  | a :: b :: c :: rest =>
      sextet_char (a / 4) :: sextet_char ((a mod 4) * 16 + b / 16)
      :: sextet_char ((b mod 16) * 4 + c / 64) :: sextet_char (c mod 64)
      :: encode_N rest
  end%N.

Fixpoint decode_N (cs : list ascii) : option (list N) :=
  match cs with
  | [] => Some []
  | [c1; c2; "="%char; "="%char] =>
      s1 ← char_sextet c1; s2 ← char_sextet c2;
      Some [s1 * 4 + s2 / 16]%N
  | [c1; c2; c3; "="%char] =>
      s1 ← char_sextet c1; s2 ← char_sextet c2; s3 ← char_sextet c3;
      Some [s1 * 4 + s2 / 16; (s2 mod 16) * 16 + s3 / 4]%N
  | c1 :: c2 :: c3 :: c4 :: rest =>
      s1 ← char_sextet c1; s2 ← char_sextet c2; s3 ← char_sextet c3;
      s4 ← char_sextet c4; bs ← decode_N rest;
      Some (s1 * 4 + s2 / 16 :: (s2 mod 16) * 16 + s3 / 4
            :: (s3 mod 4) * 64 + s4 :: bs)%N
  | _ => None
  end.

Definition encode (bs : list Byte.byte) : string :=
  string_of_list_ascii (encode_N (Byte.to_N <$> bs)).

Definition byte_of_N (n : N) : Byte.byte := default Byte.x00 (Byte.of_N n).

Definition decode (s : string) : option (list Byte.byte) :=
  fmap (M := list) byte_of_N <$> decode_N (list_ascii_of_string s).

Definition encode_string (s : string) : string :=
  string_of_list_ascii (encode_N (N_of_ascii <$> list_ascii_of_string s)).
End Base64.

Module Mock.
(** A resource hash message is the hash it carries, a signed transaction
    the text that was signed, a NEM hash its text. *)
Definition types : HostTypes :=
  {| ResourceHashMessage := string;
     SignedTransaction := string;
     NemHash := string |}.

Section Mock.
#[local] Existing Instance types.

Fixpoint ends_with (c : ascii) (s : string) : bool :=
  match s with
  | EmptyString => false
  | String c' EmptyString => Ascii.eqb c c'
  | String _ rest => ends_with c rest
  end.

(** Accepts the texts between braces: enough to tell [{}] from prose. *)
Definition braced (v : JsVal) : bool :=
  match v with
  | VStr (String "{"%char rest) => ends_with "}"%char rest
  | _ => false
  end.

Definition latin1_btoa (v : JsVal) : Result string :=
  match v with
  | VStr s => Return (Base64.encode_string s)
  | VNull => Return (Base64.encode_string "null")
  | VUndefined => Return (Base64.encode_string "undefined")
  | _ => Throw (VError "InvalidCharacterError" "String contains an invalid character")
  end.

Definition quote : string := String "034"%char EmptyString.

Definition json_field (kv : string * JsVal) : option string :=
  let '(k, v) := kv in
  match v with
  | VStr s => Some (quote +:+ k +:+ quote +:+ ":" +:+ quote +:+ s +:+ quote)
  | VNull => Some (quote +:+ k +:+ quote +:+ ":null")
  | VBool true => Some (quote +:+ k +:+ quote +:+ ":true")
  | VBool false => Some (quote +:+ k +:+ quote +:+ ":false")
  | VNum n => Some (quote +:+ k +:+ quote +:+ ":" +:+ pretty n)
  | VUndefined => None
  | _ => Some (quote +:+ k +:+ quote +:+ ":{}")
  end.

Fixpoint join (sep : string) (l : list string) : string :=
  match l with
  | [] => EmptyString
  | [s] => s
  | s :: rest => s +:+ sep +:+ join sep rest
  end.

(** Fields in the order of the map, not in the order they were set. *)
Definition flat_stringify (h : gmap loc (gmap string JsVal)) (v : JsVal) : string :=
  match v with
  | VRef l =>
      "{" +:+ join "," (omap json_field (map_to_list (default ∅ (h !! l)))) +:+ "}"
  | VStr s => quote +:+ s +:+ quote
  | VNum n => pretty n
  | VBool true => "true"
  | VBool false => "false"
  | _ => "null"
  end.

Definition base64_decode (v : JsVal) : Result (list Byte.byte) :=
  match v with
  | VStr s =>
      match Base64.decode s with
      | Some bs => Return bs
      | None => Throw (VError "Error" "not base64")
      end
  | _ => Throw (VError "TypeError" "Cannot read property 'length' of null")
  end.

(** The buffer holds the hash and nothing else; an empty buffer holds
    no message. *)
Definition read_hash (bb : ByteBuffer) : Result ResourceHashMessage :=
  match bytes_ bb with
  | [] => Throw (VError "RangeError" "empty buffer")
  | bs => Return (string_of_list_ascii (ascii_of_byte <$> bs))
  end.

(** The bytes [read_hash] reads a hash back from. *)
Definition write_hash (m : ResourceHashMessage) : list Byte.byte :=
  byte_of_ascii <$> list_ascii_of_string m.

(** Signs text content with a text key, and refuses anything else. *)
Definition sign (service : RemoteTransactionAnnounceService)
    (content senderPrivateKey recieverPublicKey messageType : JsVal)
    : Result SignedTransaction :=
  match content, senderPrivateKey with
  | VStr c, VStr k => Return ("signed(" +:+ c +:+ ")by(" +:+ k +:+ ")")
  | _, _ => Throw (VError "Error" "cannot sign")
  end.

Definition announced (tx : SignedTransaction) : Notifications :=
  {| emitted :=
       [VAnnounceResult {| type := Validation; code := 1;
                           message := "SUCCESS";
                           transactionHash := tx;
                           innerTransactionHash := EmptyString |}];
     completion := Completed |}.

Definition announce (service : RemoteTransactionAnnounceService)
    (tx : SignedTransaction) : Result Notifications :=
  Return (announced tx).

(** The collaborators with a backend that gives [answer] to every
    request. *)
Definition collaborators (answer : HttpOutcome) : Collaborators :=
  {| http_backend := fun _ => answer;
     btoa := latin1_btoa;
     JSON_stringify := flat_stringify;
     isJSONString := braced;
     decode := base64_decode;
     getRootAsResourceHashMessage := read_hash;
     signTransaction := sign;
     announceTransaction := announce;
     wrapError := fun e => e;
     TEST_NET := 152 |}.

(** A world whose heap holds one request, at location 1. *)
Definition world_with (request : gmap string JsVal) : World :=
  {| heap := {[ 1%positive := request ]}; trace := [] |}.

Definition text_request : gmap string JsVal :=
  {[ "text" := VStr "hi"; "metadata" := VStr "{}";
     "senderPrivateKey" := VStr "sk"; "recieverPublicKey" := VStr "pk";
     "messageType" := VStr "PLAIN" ]}.

Definition binary_request : gmap string JsVal :=
  {[ "data" := VStr "AAEC"; "metadata" := VStr "{}";
     "senderPrivateKey" := VStr "sk"; "recieverPublicKey" := VStr "pk";
     "messageType" := VStr "PLAIN" ]}.

(** The backend's answer to a stored upload: status 200 and the base64
    text of the bytes of the hash [QmHash1]. *)
Definition stored : HttpOutcome := HttpOk 200 (VStr "UW1IYXNoMQ==").

Definition stored_collaborators : Collaborators := collaborators stored.

(** The request handed to the operations: the record at location 1. *)
Definition record : JsVal := VRef 1%positive.

(** A service on the default gateway. *)
Definition uploader : RemoteUploadService :=
  @new_RemoteUploadService _ stored_collaborators None None.
End Mock.
End Mock.

(** ** What the statements below speak of *)
Section Observations.
Context `{Collaborators}.

(** The four public upload operations. *)
Inductive Operation : Set :=
| OpUploadText
| OpUploadTextToIFPSOnly
| OpUploadBinary
| OpUploadBinaryToIPFSOnly.

Definition invoke (op : Operation) (this : RemoteUploadService) (payload : JsVal)
    : M Observable :=
  match op with
  | OpUploadText => uploadText this payload
  | OpUploadTextToIFPSOnly => uploadTextToIFPSOnly this payload
  | OpUploadBinary => uploadBinary this payload
  | OpUploadBinaryToIPFSOnly => uploadBinaryToIPFSOnly this payload
  end.

Definition is_text_operation (op : Operation) : bool :=
  match op with
  | OpUploadText | OpUploadTextToIFPSOnly => true
  | OpUploadBinary | OpUploadBinaryToIPFSOnly => false
  end.

(** The operations that stop at the storage step. *)
Definition is_storage_only (op : Operation) : bool :=
  match op with
  | OpUploadTextToIFPSOnly | OpUploadBinaryToIPFSOnly => true
  | OpUploadText | OpUploadBinary => false
  end.

(** The endpoint an operation posts to. *)
Definition endpoint_of (op : Operation) (this : RemoteUploadService) : string :=
  if is_text_operation op then baseUrl this +:+ "upload/text"
  else baseUrl this +:+ "upload/bytes/binary".

(** The announce service an operation signs and announces with. *)
Definition service_of (op : Operation) (this : RemoteUploadService)
    : RemoteTransactionAnnounceService :=
  if is_text_operation op then announceService this
  else new_RemoteTransactionAnnounceService (baseUrl this) (nemNetwork this).

(** The errors of the checks at the head of the upload methods. *)
Definition validation_messages : list string :=
  [msg_payload_null; msg_text_required; msg_data_required; msg_metadata_json].

(** A request with a required field missing: no request at all ([null]);
    for a text upload, a record whose [text] is absent, [undefined] or
    [null]; for a binary upload, a record whose [data] is [null]. *)
Definition missing_required_field (op : Operation) (w : World) (payload : JsVal) : bool :=
  match payload with
  | VNull => true
  | VRef l =>
      if is_text_operation op then
        match object_at (heap w) l !! "text" with
        | None | Some VUndefined | Some VNull => true
        | Some _ => false
        end
      else
        match object_at (heap w) l !! "data" with
        | Some VNull => true
        | _ => false
        end
  | _ => false
  end.

(** The steps of the pipeline, as they show in the trace. *)
Inductive Step : Set :=
| StepUpload
| StepSign
| StepAnnounce.

Definition step_of (ev : Event) : option Step :=
  match ev with
  | EvConsoleLog _ => None
  | EvHttpPost _ => Some StepUpload
  | EvSignTransaction _ _ _ _ => Some StepSign
  | EvAnnounceTransaction _ => Some StepAnnounce
  end.

Definition steps (t : list Event) : list Step := omap step_of t.

(** The requests handed to the HTTP client, in order. *)
Definition http_requests (t : list Event) : list HttpRequest :=
  omap (fun ev => match ev with EvHttpPost req => Some req | _ => None end) t.

(** The contents handed to the signer, in order. *)
Definition signed_contents (t : list Event) : list JsVal :=
  omap (fun ev => match ev with
                  | EvSignTransaction content _ _ _ => Some content
                  | _ => None
                  end) t.

(** A world with more events in its trace. *)
Definition after_events (w : World) (evs : list Event) : World :=
  {| heap := heap w; trace := trace w ++ evs |}.

(** The world a text upload leaves when it returns: the [text] field of
    the request at [l] holds [encoded], and the body has been logged. *)
Definition text_encoded_heap (w : World) (l : loc) (encoded : string)
    : gmap loc (gmap string JsVal) :=
  <[l := <["text" := VStr encoded]> (object_at (heap w) l)]> (heap w).

(** What the upload methods return, by the flag [returnHash]. *)
Definition upload_observable (returnHash : bool) (req : HttpRequest) : Observable :=
  if negb returnHash then http_post req
  else rx_catchError handleError (rx_map read_resource_hash (http_post req)).

(** What a subscriber of the decoding branch is told, by the answer of
    the backend. *)
Definition decoded_notifications (answer : HttpOutcome) : Notifications :=
  match answer with
  | HttpFail err => {| emitted := []; completion := Errored (wrapError err) |}
  | HttpOk status body =>
      match decode body with
      | Throw e => {| emitted := []; completion := Errored (wrapError e) |}
      | Return data =>
          match getRootAsResourceHashMessage (new_ByteBuffer data) with
          | Throw e => {| emitted := []; completion := Errored (wrapError e) |}
          | Return m => {| emitted := [VResourceHash m]; completion := Completed |}
          end
      end
  end.

(** What the signing and announcing steps add to a subscription whose
    upload the backend answered with [answer]: the events, and what the
    subscriber is told. *)
Definition after_upload (service : RemoteTransactionAnnounceService)
    (h : gmap loc (gmap string JsVal)) (payload : JsVal) (answer : HttpOutcome)
    : Notifications * list Event :=
  match answer with
  | HttpFail err => ({| emitted := []; completion := Errored err |}, [])
  | HttpOk status body =>
      let sk := prop_value h payload "senderPrivateKey" in
      let pk := prop_value h payload "recieverPublicKey" in
      let mt := prop_value h payload "messageType" in
      match signTransaction service body sk pk mt with
      | Throw e =>
          ({| emitted := []; completion := Errored e |},
           [EvSignTransaction body sk pk mt])
      | Return tx =>
          match announceTransaction service tx with
          | Throw e =>
              ({| emitted := []; completion := Errored e |},
               [EvSignTransaction body sk pk mt; EvAnnounceTransaction tx])
          | Return n =>
              (n, [EvSignTransaction body sk pk mt; EvAnnounceTransaction tx])
          end
      end
  end.

(** A record that passes the checks at the head of its upload method: the
    required field is there and the metadata is a JSON string. *)
Definition passes_validation (op : Operation) (w : World) (l : loc) : bool :=
  let required :=
    prop_value (heap w) (VRef l) (if is_text_operation op then "text" else "data") in
  negb (if is_text_operation op
        then is_null required || is_undefined required || is_empty_string required
        else is_null required)
  && isJSONString (prop_value (heap w) (VRef l) "metadata").

(** What a public operation makes of the observable of its upload
    method. *)
Definition finish (op : Operation) (this : RemoteUploadService) (payload : JsVal)
    (source : Observable) : Observable :=
  if is_storage_only op then source
  else rx_switchMap (sign_and_announce (service_of op this) payload) source.

(** The request an operation posts with the body [bodyData]. *)
Definition request_of (op : Operation) (this : RemoteUploadService) (bodyData : string)
    : HttpRequest :=
  upload_request (endpoint_of op this) bodyData.
End Observations.

(** ** The other methods of the service

    [uploadBase64Binary], [uploadSignAnnounce], [uploadGenerateSign] and
    [uploadCleanup].  A parameter declared [string] is, at run time, a
    string, [null] or [undefined]; the methods test for the last two. *)
Inductive Nullable (A : Type) : Type :=
| IsNull
| IsUndefined
| Value (a : A).

Arguments IsNull {A}.
Arguments IsUndefined {A}.
Arguments Value {A} a.

(** [x === null || x === undefined] and [x === null] *)
Definition is_absent {A : Type} (x : Nullable A) : bool :=
  match x with Value _ => false | _ => true end.

Definition nullable_is_null {A : Type} (x : Nullable A) : bool :=
  match x with IsNull => true | _ => false end.

Definition msg_private_key_required : string :=
  "The private key is required for signing and announcing to the network.".
Definition msg_public_key_required : string :=
  "The public key is required for signing and announcing to the network.".
Definition msg_message_type_required : string :=
  "The message type either PLAIN or SECURE is required.".
Definition msg_file_required : string := "The request file is required".
Definition msg_multihash_required : string := "Multihash is required".

(** [HttpParams]: the parameters in the order their names were first set,
    each with the value it was last set to. *)
Fixpoint params_set (param : string) (value : Nullable string)
    (params : list (string * Nullable string)) : list (string * Nullable string) :=
  match params with
  | [] => [(param, value)]
  | (p, v) :: rest =>
      if String.eqb p param then (p, value) :: rest
      else (p, v) :: params_set param value rest
  end.

Section OtherMethods.
Context `{Collaborators}.

(** [private uploadBase64Binary(payload)] *)
Definition uploadBase64Binary (this : RemoteUploadService) (payload : JsVal)
    : M Observable :=
  let endpoint := baseUrl this +:+ "upload/base64/binary" in
  (if is_null payload then throw (new_Error msg_payload_null)
   else
     data ← get_prop payload "data";
     if is_null data
     then throw (new_Error msg_data_required)
     else
       metadata ← get_prop payload "metadata";
       if negb (isJSONString metadata)
       then throw (new_Error msg_metadata_json)
       else mret ());;
  bodyData ← stringify payload;
  mret (rx_catchError handleError
          (rx_map read_resource_hash
             (http_post (upload_request endpoint bodyData)))).

(** [public uploadSignAnnounce(pvkey, pubkey, messageType, payload)].
    [MessageType] is a type of strings: the value is handed to
    [HttpHeaders] as it is.  No [responseType] is given, so the client's
    default, [json], applies. *)
Definition uploadSignAnnounce (this : RemoteUploadService)
    (pvkey pubkey messageType : Nullable string) (payload : JsVal) : M Observable :=
  let endpoint := baseUrl this +:+ "upload/sign/announce" in
  match pvkey with
  | IsNull | IsUndefined => throw (new_Error msg_private_key_required)
  | Value pvkey =>
  match pubkey with
  | IsNull | IsUndefined => throw (new_Error msg_public_key_required)
  | Value pubkey =>
  match messageType with
  | IsNull | IsUndefined => throw (new_Error msg_message_type_required)
  | Value messageType =>
      (if is_null payload then throw (new_Error msg_payload_null)
       else
         data ← get_prop payload "data";
         if is_null data
         then throw (new_Error msg_data_required)
         else
           metadata ← get_prop payload "metadata";
           if negb (isJSONString metadata)
           then throw (new_Error msg_metadata_json)
           else mret ());;
      let headers :=
        [("Content-Type", "application/json"); ("Accept", "*/*");
         ("x-pvkey", pvkey); ("x-pubkey", pubkey); ("messageType", messageType)] in
      bodyData ← stringify payload;
      mret (http_post {| url := endpoint;
                         req_body := bodyData;
                         headers := headers;
                         responseType := "json";
                         observe := "response";
                         reportProgress := true |})
  end end end.
End OtherMethods.

(** The last two methods post what [HttpRequest] has no place for, a form
    and query parameters; they do nothing but check their arguments and
    return [this.http.post(...)], given here by its arguments. *)
Section Calls.
Context `{Collaborators}.
Variable Blob : Type.

Inductive HttpBody : Type :=
| BodyNull
| BodyFormData (entries : list (string * Nullable Blob)).

Record HttpCall : Type := {
  call_url : string;
  call_body : HttpBody;
  call_headers : list (string * string);
  call_params : list (string * Nullable string);
  call_responseType : string;
  call_observe : string;
  call_reportProgress : bool
}.

(** [private uploadGenerateSign(pvkey, pubkey, messageType, file, keywords?,
    metadata?)]; an optional parameter left out is [undefined]. *)
Definition uploadGenerateSign (this : RemoteUploadService)
    (pvkey pubkey messageType : Nullable string) (file : Nullable Blob)
    (keywords metadata : Nullable string) : Result HttpCall :=
  let endpoint := baseUrl this +:+ "upload/generate-sign" in
  match pvkey with
  | IsNull | IsUndefined => Throw (new_Error msg_private_key_required)
  | Value pvkey =>
  match pubkey with
  | IsNull | IsUndefined => Throw (new_Error msg_public_key_required)
  | Value pubkey =>
  if is_absent messageType then Throw (new_Error msg_message_type_required)
  else if nullable_is_null file then Throw (new_Error msg_file_required)
  else
    let headers := [("Accept", "*/*"); ("x-pvkey", pvkey); ("x-pubkey", pubkey)] in
    let queryParams := [] in
    let queryParams :=
      if negb (nullable_is_null keywords)
      then params_set "keywords" keywords queryParams else queryParams in
    let queryParams :=
      if negb (nullable_is_null metadata)
      then params_set "metadata" metadata queryParams else queryParams in
    let queryParams :=
      if negb (nullable_is_null messageType)
      then params_set "messageType" messageType queryParams else queryParams in
    let formData := [("file", file)] in
    Return {| call_url := endpoint;
              call_body := BodyFormData formData;
              call_headers := headers;
              call_params := queryParams;
              call_responseType := "json";
              call_observe := "response";
              call_reportProgress := true |}
  end end.

(** [public uploadCleanup(multihash)] *)
Definition uploadCleanup (this : RemoteUploadService) (multihash : Nullable string)
    : Result HttpCall :=
  let endpoint := baseUrl this +:+ "upload/cleanup" in
  match multihash with
  | IsNull | IsUndefined => Throw (new_Error msg_multihash_required)
  | Value multihash =>
      let headers := [("Content-Type", "application/json"); ("Accept", "*/*")] in
      let queryParams := params_set "multihash" (Value multihash) [] in
      Return {| call_url := endpoint;
                call_body := BodyNull;
                call_headers := headers;
                call_params := queryParams;
                call_responseType := "json";
                call_observe := "response";
                call_reportProgress := true |}
  end.
End Calls.

Arguments BodyNull {Blob}.
Arguments BodyFormData {Blob} entries.
Arguments call_url {Blob} _.
Arguments call_body {Blob} _.
Arguments call_headers {Blob} _.
Arguments call_params {Blob} _.
Arguments call_responseType {Blob} _.
Arguments call_observe {Blob} _.
Arguments call_reportProgress {Blob} _.
Arguments uploadGenerateSign {_ Blob} this pvkey pubkey messageType file keywords metadata.

(** The lines written to the console, in order. *)
Definition console_lines `{HostTypes} (t : list Event) : list string :=
  omap (fun ev => match ev with EvConsoleLog line => Some line | _ => None end) t.

(** Stand-ins for the runs of the other properties: a backend that refuses
    every request, and an error handler whose wrapping shows. *)
Module Fixtures.
Section Fixtures.
#[local] Existing Instance Mock.types.

Definition failure : JsVal := VError "HttpErrorResponse" "503 Service Unavailable".

Definition unavailable : HttpOutcome := HttpFail failure.

Definition wrapped (e : JsVal) : JsVal :=
  match e with
  | VError name message => VError "Error" ("wrapped: " +:+ message)
  | _ => VError "Error" "wrapped"
  end.

Definition refusing : Collaborators :=
  {| http_backend := fun _ => unavailable;
     btoa := Mock.latin1_btoa;
     JSON_stringify := Mock.flat_stringify;
     isJSONString := Mock.braced;
     decode := Mock.base64_decode;
     getRootAsResourceHashMessage := Mock.read_hash;
     signTransaction := Mock.sign;
     announceTransaction := Mock.announce;
     wrapError := wrapped;
     TEST_NET := 152 |}.

Definition uploader : RemoteUploadService :=
  @new_RemoteUploadService _ refusing None None.
End Fixtures.
End Fixtures.

(** * Properties *)
Section Properties.
Context `{Collaborators}.

Implicit Types (w : World) (payload : JsVal) (this : RemoteUploadService)
  (op : Operation) (l : loc).

(** ** How the methods run *)

Ltac list_member :=
  rewrite ?elem_of_cons, ?elem_of_nil; intuition (discriminate || eauto).

Ltac run_method :=
  unfold mbind, M_bind, bind, mret, M_ret, ret, throw, lift, stringify,
    read_heap, console_log, emit_event, get_prop, set_prop; simpl.

Lemma uploadBinaryToIPFS_run this payload returnHash w :
  uploadBinaryToIPFS this payload returnHash w =
  match payload with
  | VNull => (Throw (new_Error msg_payload_null), w)
  | VUndefined =>
      (Throw (VError "TypeError" "Cannot read property 'data' of undefined"), w)
  | _ =>
      if is_null (prop_value (heap w) payload "data")
      then (Throw (new_Error msg_data_required), w)
      else if negb (isJSONString (prop_value (heap w) payload "metadata"))
      then (Throw (new_Error msg_metadata_json), w)
      else (Return (upload_observable returnHash
                      (upload_request (baseUrl this +:+ "upload/bytes/binary")
                         (JSON_stringify (heap w) payload))), w)
  end.
Proof.
  unfold uploadBinaryToIPFS, upload_observable. run_method.
  destruct payload; simpl; try reflexivity;
    repeat match goal with
           | |- context [if ?b then _ else _] => destruct b; simpl
           end; reflexivity.
Qed.

Lemma uploadTextToIPFS_run_ref this l returnHash w :
  uploadTextToIPFS this (VRef l) returnHash w =
  let text := prop_value (heap w) (VRef l) "text" in
  if is_null text || is_undefined text || is_empty_string text
  then (Throw (new_Error msg_text_required), w)
  else if negb (isJSONString (prop_value (heap w) (VRef l) "metadata"))
  then (Throw (new_Error msg_metadata_json), w)
  else
    match btoa text with
    | Throw e => (Throw e, w)
    | Return encoded =>
        let h := text_encoded_heap w l encoded in
        let bodyData := JSON_stringify h (VRef l) in
        (Return (upload_observable returnHash
                   (upload_request (baseUrl this +:+ "upload/text") bodyData)),
         {| heap := h; trace := trace w ++ [EvConsoleLog bodyData] |})
    end.
Proof.
  unfold uploadTextToIPFS, upload_observable, text_encoded_heap. run_method.
  destruct (is_null _ || is_undefined _ || is_empty_string _); simpl; [reflexivity|].
  destruct (negb (isJSONString _)); simpl; [reflexivity|].
  destruct (btoa _); simpl; [|reflexivity].
  destruct (negb returnHash); reflexivity.
Qed.

Lemma uploadTextToIPFS_run_other this payload returnHash w :
  (∀ l, payload ≠ VRef l) →
  ∃ e, uploadTextToIPFS this payload returnHash w = (Throw e, w) ∧
       (payload = VNull → e = new_Error msg_payload_null) ∧
       (payload ≠ VNull → payload ≠ VUndefined → e = new_Error msg_text_required).
Proof.
  intros Hne. unfold uploadTextToIPFS. run_method.
  destruct payload; simpl; try (eexists; split; [reflexivity|]; split; congruence).
  exfalso. by eapply Hne.
Qed.

(** ** How the observables run *)

Lemma http_post_run req w :
  http_post req w =
  (match http_backend req with
   | HttpOk status body =>
       {| emitted := [VResponse status body]; completion := Completed |}
   | HttpFail err => {| emitted := []; completion := Errored err |}
   end, after_events w [EvHttpPost req]).
Proof. unfold http_post, after_events. by destruct (http_backend req). Qed.

Lemma upload_observable_decoded_run req w :
  upload_observable true req w =
  (decoded_notifications (http_backend req), after_events w [EvHttpPost req]).
Proof.
  unfold upload_observable, rx_catchError, rx_map, decoded_notifications. simpl.
  rewrite http_post_run.
  destruct (http_backend req) as [status body|err]; simpl; [|reflexivity].
  unfold read_resource_hash. run_method.
  destruct (decode body) as [data|e]; simpl; [|reflexivity].
  by destruct (getRootAsResourceHashMessage _).
Qed.

Lemma pipeline_run service payload req w :
  payload ≠ VNull → payload ≠ VUndefined →
  rx_switchMap (sign_and_announce service payload) (http_post req) w =
  ((after_upload service (heap w) payload (http_backend req)).1,
   after_events w
     (EvHttpPost req :: (after_upload service (heap w) payload (http_backend req)).2)).
Proof.
  intros Hnull Hundef. unfold rx_switchMap, after_upload. rewrite http_post_run.
  destruct (http_backend req) as [status body|err]; simpl; [|reflexivity].
  unfold sign_and_announce, call_signTransaction, call_announceTransaction.
  run_method.
  destruct payload; try congruence; simpl;
    (destruct (signTransaction _ _ _ _ _) as [tx|e]; simpl;
     [|unfold after_events; simpl; by rewrite <- app_assoc]);
    (destruct (announceTransaction _ _) as [[vs last]|e]; simpl;
     [|unfold after_events; simpl; by rewrite <- !app_assoc]);
    destruct last; simpl; unfold after_events; simpl;
    rewrite <- ?app_assoc, ?app_nil_r; reflexivity.
Qed.

(** ** The public operations *)

Lemma invoke_run op this payload w :
  invoke op this payload w =
  match (if is_text_operation op then uploadTextToIPFS else uploadBinaryToIPFS)
          this payload (is_storage_only op) w with
  | (Return source, w') => (Return (finish op this payload source), w')
  | (Throw e, w') => (Throw e, w')
  end.
Proof.
  destruct op; simpl;
    unfold uploadText, uploadTextToIFPSOnly, uploadBinary, uploadBinaryToIPFSOnly,
      finish; simpl; run_method;
    match goal with |- context [?f this payload ?b w] =>
      destruct (f this payload b w) as [[source|e] w'] end; reflexivity.
Qed.

(** An operation called with a record at [l]: the checks, then, for a text
    upload, the encoding written into the record. *)
Lemma invoke_run_ref op this l w :
  invoke op this (VRef l) w =
  let required := prop_value (heap w) (VRef l) (if is_text_operation op then "text" else "data") in
  let metadata := prop_value (heap w) (VRef l) "metadata" in
  if (if is_text_operation op
      then is_null required || is_undefined required || is_empty_string required
      else is_null required)
  then (Throw (new_Error (if is_text_operation op then msg_text_required
                          else msg_data_required)), w)
  else if negb (isJSONString metadata)
  then (Throw (new_Error msg_metadata_json), w)
  else if is_text_operation op then
    match btoa required with
    | Throw e => (Throw e, w)
    | Return encoded =>
        let h := text_encoded_heap w l encoded in
        let bodyData := JSON_stringify h (VRef l) in
        (Return (finish op this (VRef l)
                   (upload_observable (is_storage_only op) (request_of op this bodyData))),
         {| heap := h; trace := trace w ++ [EvConsoleLog bodyData] |})
    end
  else
    (Return (finish op this (VRef l)
               (upload_observable (is_storage_only op)
                  (request_of op this (JSON_stringify (heap w) (VRef l))))), w).
Proof.
  rewrite invoke_run. unfold request_of, endpoint_of.
  destruct (is_text_operation op) eqn:Htext.
  - rewrite uploadTextToIPFS_run_ref. cbv zeta.
    destruct (is_null _ || is_undefined _ || is_empty_string _); [reflexivity|].
    destruct (negb (isJSONString _)); [reflexivity|].
    by destruct (btoa _).
  - rewrite uploadBinaryToIPFS_run. cbv zeta.
    destruct (is_null _); [reflexivity|].
    by destruct (negb (isJSONString _)).
Qed.

Lemma invoke_run_null op this w :
  invoke op this VNull w = (Throw (new_Error msg_payload_null), w).
Proof.
  rewrite invoke_run. destruct (is_text_operation op).
  - destruct (uploadTextToIPFS_run_other this VNull (is_storage_only op) w)
      as (e & -> & -> & _); [congruence|reflexivity..].
  - by rewrite uploadBinaryToIPFS_run.
Qed.

Lemma call_and_subscribe_throw (method : M Observable) w e w' :
  method w = (Throw e, w') → call_and_subscribe method w = (Throw e, w').
Proof. unfold call_and_subscribe. by intros ->. Qed.

Lemma finish_run op this payload req w :
  payload ≠ VNull → payload ≠ VUndefined →
  finish op this payload (upload_observable (is_storage_only op) req) w =
  if is_storage_only op
  then (decoded_notifications (http_backend req), after_events w [EvHttpPost req])
  else
    ((after_upload (service_of op this) (heap w) payload (http_backend req)).1,
     after_events w
       (EvHttpPost req
        :: (after_upload (service_of op this) (heap w) payload (http_backend req)).2)).
Proof.
  intros Hnull Hundef. unfold finish.
  destruct (is_storage_only op).
  - apply upload_observable_decoded_run.
  - unfold upload_observable. simpl. by apply pipeline_run.
Qed.

(** A call throws and leaves the world as it was, or it returns: a binary
    upload in the world as it was, a text upload in a world where the
    record holds the encoded text and the body is logged. *)
Lemma invoke_cases op this payload w :
  (∃ e, invoke op this payload w = (Throw e, w)) ∨
  (is_text_operation op = false ∧ payload ≠ VNull ∧ payload ≠ VUndefined ∧
   invoke op this payload w =
   (Return (finish op this payload
              (upload_observable (is_storage_only op)
                 (request_of op this (JSON_stringify (heap w) payload)))), w)) ∨
  (∃ l encoded,
     is_text_operation op = true ∧ payload = VRef l ∧
     btoa (prop_value (heap w) payload "text") = Return encoded ∧
     invoke op this payload w =
     (Return (finish op this payload
                (upload_observable (is_storage_only op)
                   (request_of op this
                      (JSON_stringify (text_encoded_heap w l encoded) payload)))),
      {| heap := text_encoded_heap w l encoded;
         trace := trace w ++
                  [EvConsoleLog (JSON_stringify (text_encoded_heap w l encoded) payload)] |})).
Proof.
  assert ((∃ l, payload = VRef l) ∨ (∀ l, payload ≠ VRef l)) as [[l ->]|Hother]
    by (destruct payload; eauto; right; congruence).
  - rewrite invoke_run_ref. cbv zeta.
    destruct (is_text_operation op) eqn:Htext; cbn iota.
    + destruct (is_null _ || is_undefined _ || is_empty_string _); [eauto|].
      destruct (negb (isJSONString _)); [eauto|].
      destruct (btoa _) as [encoded|e] eqn:Hbtoa; [|eauto].
      right; right. by exists l, encoded.
    + destruct (is_null _); [eauto|].
      destruct (negb (isJSONString _)); [eauto|].
      right; left. done.
  - rewrite invoke_run. destruct (is_text_operation op) eqn:Htext.
    + destruct (uploadTextToIPFS_run_other this payload (is_storage_only op) w)
        as (e & -> & _); [done|eauto].
    + rewrite uploadBinaryToIPFS_run. unfold request_of, endpoint_of. rewrite Htext.
      destruct payload; eauto;
        (destruct (is_null _); [eauto|]);
        (destruct (negb (isJSONString _)); [eauto|]);
        right; left; done.
Qed.

(** The whole of a caller's dealing with an operation: the call throws,
    or it returns and the subscription runs in the world the call left. *)
Lemma call_and_subscribe_cases op this payload w :
  (∃ e, invoke op this payload w = (Throw e, w) ∧
        call_and_subscribe (invoke op this payload) w = (Throw e, w)) ∨
  (∃ logs h1 bodyData,
     let w1 := {| heap := h1; trace := trace w ++ logs |} in
     let req := request_of op this bodyData in
     payload ≠ VNull ∧ payload ≠ VUndefined ∧
     (∃ observable, invoke op this payload w = (Return observable, w1)) ∧
     (is_text_operation op = false ∧ logs = [] ∧ h1 = heap w ∧
      bodyData = JSON_stringify (heap w) payload
      ∨
      ∃ l encoded,
        is_text_operation op = true ∧ payload = VRef l ∧
        btoa (prop_value (heap w) payload "text") = Return encoded ∧
        h1 = text_encoded_heap w l encoded ∧
        bodyData = JSON_stringify h1 payload ∧
        logs = [EvConsoleLog bodyData]) ∧
     call_and_subscribe (invoke op this payload) w =
     if is_storage_only op
     then (Return (decoded_notifications (http_backend req)),
           after_events w1 [EvHttpPost req])
     else (Return (after_upload (service_of op this) h1 payload (http_backend req)).1,
           after_events w1
             (EvHttpPost req
              :: (after_upload (service_of op this) h1 payload (http_backend req)).2))).
Proof.
  destruct (invoke_cases op this payload w)
    as [[e He]|[(Htext & Hnull & Hundef & Hrun)|(l & encoded & Htext & -> & Hbtoa & Hrun)]].
  - left. exists e. split; [done|]. by apply call_and_subscribe_throw.
  - right. exists [], (heap w), (JSON_stringify (heap w) payload). cbv zeta.
    rewrite app_nil_r. destruct w as [h t]; simpl in *.
    split_and!; try done; [eauto|by left|].
    unfold call_and_subscribe. rewrite Hrun, finish_run by done.
    by destruct (is_storage_only op).
  - right.
    exists [EvConsoleLog (JSON_stringify (text_encoded_heap w l encoded) (VRef l))],
      (text_encoded_heap w l encoded),
      (JSON_stringify (text_encoded_heap w l encoded) (VRef l)). cbv zeta.
    split_and!; try done; [eauto|right; by exists l, encoded|].
    unfold call_and_subscribe. rewrite Hrun, finish_run by done.
    by destruct (is_storage_only op).
Qed.

(** The signing and announcing steps come in this order, and only after an
    upload the backend accepted. *)
Lemma after_upload_steps service h payload answer :
  let evs := (after_upload service h payload answer).2 in
  match answer with
  | HttpFail _ => evs = []
  | HttpOk status body =>
      let sk := prop_value h payload "senderPrivateKey" in
      let pk := prop_value h payload "recieverPublicKey" in
      let mt := prop_value h payload "messageType" in
      match signTransaction service body sk pk mt with
      | Throw _ => evs = [EvSignTransaction body sk pk mt]
      | Return tx => evs = [EvSignTransaction body sk pk mt; EvAnnounceTransaction tx]
      end
  end.
Proof.
  unfold after_upload. destruct answer as [status body|err]; simpl; [|done].
  destruct (signTransaction _ _ _ _ _) as [tx|e]; simpl; [|done].
  by destruct (announceTransaction _ _).
Qed.

Lemma after_upload_no_request service h payload answer :
  http_requests (after_upload service h payload answer).2 = [].
Proof.
  pose proof (after_upload_steps service h payload answer) as Hsteps.
  cbv zeta in Hsteps.
  destruct answer; [destruct (signTransaction _ _ _ _ _)|]; by rewrite Hsteps.
Qed.

Lemma http_requests_app (t1 t2 : list Event) :
  http_requests (t1 ++ t2) = http_requests t1 ++ http_requests t2.
Proof. apply omap_app. Qed.

Lemma signed_contents_app (t1 t2 : list Event) :
  signed_contents (t1 ++ t2) = signed_contents t1 ++ signed_contents t2.
Proof. apply omap_app. Qed.

(** The record a text upload has written to, read field by field. *)
Lemma text_encoded_heap_lookup w l encoded l' name :
  prop_value (text_encoded_heap w l encoded) (VRef l') name =
  if decide (l' = l ∧ name = "text") then VStr encoded
  else prop_value (heap w) (VRef l') name.
Proof.
  unfold text_encoded_heap, prop_value, object_at.
  destruct (decide (l' = l)) as [->|Hl].
  - rewrite lookup_insert_eq. simpl.
    destruct (decide (name = "text")) as [->|Hname].
    + rewrite lookup_insert_eq. by rewrite decide_True.
    + rewrite lookup_insert_ne by done.
      rewrite decide_False by (intros [? ?]; congruence). done.
  - rewrite lookup_insert_ne by done.
    rewrite decide_False by (intros [? ?]; congruence). done.
Qed.

(** A record that passes the checks: the call returns, unless [btoa]
    throws. *)
Lemma passes_validation_run op this l w :
  passes_validation op w l = true →
  invoke op this (VRef l) w =
  if is_text_operation op then
    match btoa (prop_value (heap w) (VRef l) "text") with
    | Throw e => (Throw e, w)
    | Return encoded =>
        let h := text_encoded_heap w l encoded in
        let bodyData := JSON_stringify h (VRef l) in
        (Return (finish op this (VRef l)
                   (upload_observable (is_storage_only op) (request_of op this bodyData))),
         {| heap := h; trace := trace w ++ [EvConsoleLog bodyData] |})
    end
  else
    (Return (finish op this (VRef l)
               (upload_observable (is_storage_only op)
                  (request_of op this (JSON_stringify (heap w) (VRef l))))), w).
Proof.
  unfold passes_validation. cbv zeta. intros [Hreq Hmeta]%andb_true_iff.
  rewrite invoke_run_ref. cbv zeta.
  apply negb_true_iff in Hreq. rewrite Hreq, Hmeta. simpl.
  by destruct (is_text_operation op).
Qed.

(** ** Validation *)

(** C1. An upload request with a required field missing (no request at
    all, a text request whose [text] is absent, [undefined] or [null], a
    binary request whose [data] is [null]) makes each of the four public
    operations throw one of the validation errors at the call, in the
    world it was called in: nothing was posted, nothing was logged, and
    there is no observable to subscribe to. *)
Theorem missing_required_field_throws op this payload w :
  missing_required_field op w payload = true →
  ∃ msg,
    msg ∈ validation_messages ∧
    msg = (if is_null payload then msg_payload_null
           else if is_text_operation op then msg_text_required
           else msg_data_required) ∧
    invoke op this payload w = (Throw (new_Error msg), w) ∧
    call_and_subscribe (invoke op this payload) w = (Throw (new_Error msg), w) ∧
    http_requests (trace (call_and_subscribe (invoke op this payload) w).2)
      = http_requests (trace w).
Proof.
  intros Hmissing.
  assert (invoke op this payload w =
          (Throw (new_Error (if is_null payload then msg_payload_null
                             else if is_text_operation op then msg_text_required
                             else msg_data_required)), w)) as Hrun.
  { destruct payload; try discriminate.
    - apply invoke_run_null.
    - rewrite invoke_run_ref. cbv zeta. unfold prop_value.
      simpl in Hmissing. simpl.
      destruct (is_text_operation op).
      + destruct (object_at (heap w) l !! "text") as [[]|]; try discriminate;
          reflexivity.
      + destruct (object_at (heap w) l !! "data") as [[]|]; try discriminate;
          reflexivity. }
  eexists. split_and!; [|reflexivity|exact Hrun|..].
  - destruct (is_null payload); [|destruct (is_text_operation op)];
      unfold validation_messages; list_member.
  - by apply call_and_subscribe_throw.
  - by rewrite (call_and_subscribe_throw _ _ _ _ Hrun).
Qed.

(** C2. An upload request, text or binary, whose [metadata] is not a JSON
    string makes each of the four public operations throw a validation
    error at the call, in the world it was called in: the error of the
    required field when that check fails first, the error of the metadata
    otherwise. *)
Theorem invalid_metadata_throws op this l w :
  isJSONString (prop_value (heap w) (VRef l) "metadata") = false →
  ∃ msg,
    msg ∈ validation_messages ∧
    invoke op this (VRef l) w = (Throw (new_Error msg), w) ∧
    call_and_subscribe (invoke op this (VRef l)) w = (Throw (new_Error msg), w) ∧
    http_requests (trace (call_and_subscribe (invoke op this (VRef l)) w).2)
      = http_requests (trace w) ∧
    (msg = msg_metadata_json ∨
     msg = if is_text_operation op then msg_text_required else msg_data_required).
Proof.
  intros Hmeta.
  assert (∃ msg, (msg = msg_metadata_json ∨
                  msg = if is_text_operation op then msg_text_required
                        else msg_data_required) ∧
                 invoke op this (VRef l) w = (Throw (new_Error msg), w))
    as (msg & Hmsg & Hrun).
  { rewrite invoke_run_ref. cbv zeta. rewrite Hmeta.
    destruct (is_text_operation op); cbn [negb];
      match goal with |- context [if ?b then (_, _) else _] => destruct b end;
      eexists; (split; [|reflexivity]); auto. }
  exists msg. split.
  { destruct Hmsg as [->| ->]; [|destruct (is_text_operation op)]; set_solver. }
  split; [done|]. rewrite (call_and_subscribe_throw _ _ _ _ Hrun). done.
Qed.

(** ** The pipeline *)


(** C6. [uploadTextToIFPSOnly] and [uploadBinaryToIPFSOnly] never call the
    signer or the announcer, whatever the request and whatever the backend
    and the decoders answer: from the call to the end of the subscription
    they post at most one request and do nothing else but log. *)
Theorem storage_only_never_signs_nor_announces op this payload w :
  is_storage_only op = true →
  ∃ new,
    trace (call_and_subscribe (invoke op this payload) w).2 = trace w ++ new ∧
    (StepSign ∉ steps new) ∧ (StepAnnounce ∉ steps new) ∧
    (steps new = [] ∨ steps new = [StepUpload]).
Proof.
  intros Honly.
  destruct (call_and_subscribe_cases op this payload w)
    as [(e & _ & ->)|(logs & h1 & bodyData & Hnull & Hundef & _ & Hcall & ->)].
  { exists []. simpl. rewrite app_nil_r. split_and!; [done|list_member..|by left]. }
  rewrite Honly. simpl.
  exists (logs ++ [EvHttpPost (request_of op this bodyData)]).
  split; [by rewrite app_assoc|].
  assert (steps logs = []) as Hlogs.
  { destruct Hcall as [(_ & -> & _)|(l & encoded & _ & _ & _ & _ & _ & ->)]; done. }
  unfold steps in *. rewrite omap_app, Hlogs. simpl.
  split_and!; [list_member..|by right].
Qed.

(** C10. The two required-field checks differ.  A text upload whose
    [text] is the empty string is refused with the error of the required
    [text] field.  A binary upload is refused with the error of the
    required [data] field exactly when [data] is [null]: with [data]
    undefined (or absent) and JSON metadata the call returns, and the
    record is posted as it is. *)
Theorem validation_asymmetry op this l w :
  (is_text_operation op = true →
   prop_value (heap w) (VRef l) "text" = VStr EmptyString →
   invoke op this (VRef l) w = (Throw (new_Error msg_text_required), w)) ∧
  (is_text_operation op = false →
   (invoke op this (VRef l) w = (Throw (new_Error msg_data_required), w)
    ↔ prop_value (heap w) (VRef l) "data" = VNull) ∧
   (prop_value (heap w) (VRef l) "data" = VUndefined →
    isJSONString (prop_value (heap w) (VRef l) "metadata") = true →
    ∃ observable,
      invoke op this (VRef l) w = (Return observable, w) ∧
      http_requests (trace (observable w).2) =
        http_requests (trace w)
        ++ [request_of op this (JSON_stringify (heap w) (VRef l))])).
Proof.
  split; intros Htext.
  - intros Hempty. rewrite invoke_run_ref. cbv zeta. rewrite Htext, Hempty. done.
  - split.
    + rewrite invoke_run_ref. cbv zeta. rewrite Htext.
      destruct (prop_value (heap w) (VRef l) "data") eqn:Hdata; simpl;
        try (destruct (negb (isJSONString _)); split; intros [=]); done.
    + intros Hdata Hmeta. rewrite invoke_run_ref. cbv zeta.
      rewrite Htext, Hdata, Hmeta. simpl. eexists. split; [done|].
      rewrite finish_run by done.
      destruct (is_storage_only op); cbn [fst snd heap trace after_events];
        rewrite !http_requests_app; simpl;
        rewrite ?after_upload_no_request; done.
Qed.

(** ** The request record *)

(** C3, as amended. [uploadBinary] and [uploadBinaryToIPFSOnly] leave the
    heap as it was, from the call to the end of the subscription.
    [uploadText] and [uploadTextToIFPSOnly] leave it as it was when the
    call throws; when the call returns, the request is a record whose
    [text] field now holds the base64 text [btoa] made of the text it
    held, and every other field of it, and every other object, is as it
    was. *)
Theorem only_text_field_is_rewritten op this payload w :
  let result := call_and_subscribe (invoke op this payload) w in
  (is_text_operation op = false → heap result.2 = heap w) ∧
  (∀ e, result.1 = Throw e → heap result.2 = heap w) ∧
  (is_text_operation op = true →
   ∀ n, result.1 = Return n →
     ∃ l encoded,
       payload = VRef l ∧
       btoa (prop_value (heap w) payload "text") = Return encoded ∧
       heap result.2 = <[l := <["text" := VStr encoded]> (object_at (heap w) l)]> (heap w) ∧
       prop_value (heap result.2) payload "text" = VStr encoded ∧
       ∀ l' name,
         (l', name) ≠ (l, "text") →
         prop_value (heap result.2) (VRef l') name = prop_value (heap w) (VRef l') name).
Proof.
  cbv zeta.
  destruct (call_and_subscribe_cases op this payload w)
    as [(e & _ & ->)|(logs & h1 & bodyData & Hnull & Hundef & _ & Hcall & ->)].
  { simpl. split_and!; [done..|]. intros _ n [=]. }
  destruct (is_storage_only op); cbn [fst snd heap trace after_events].
  all: destruct Hcall as [(Htext & _ & -> & _)|(l & encoded & Htext & -> & Hbtoa & -> & _ & _)].
  all: try (split_and!; [done|done|congruence]).
  all: split_and!; [congruence|done|].
  all: intros _ n _; exists l, encoded; split_and!; [done..| |].
  all: try (rewrite text_encoded_heap_lookup; by rewrite decide_True).
  all: intros l' name Hne; rewrite text_encoded_heap_lookup.
  all: rewrite decide_False; [done|]; intros [-> ->]; done.
Qed.


(** ** The response *)

(** C7, as amended. When the call of an operation returns, one request is
    posted.  If the backend accepts it, the two storage-only operations
    ([returnHash] true) hand the body to [decode], wrap the bytes in a
    [ByteBuffer] and read it with [getRootAsResourceHashMessage]; the
    message read is the one value the subscriber gets.  So a body that is
    the base64 text of the serialisation of a message, for a base64
    decoder and a reader that undo the two encodings at this message,
    gives this message back.  [uploadText] and [uploadBinary]
    ([returnHash] false) do not decode: the body goes to the signer as it
    came. *)
Theorem hash_only_operations_decode op this payload w n w' :
  call_and_subscribe (invoke op this payload) w = (Return n, w') →
  ∃ req,
    http_requests (trace w') = http_requests (trace w) ++ [req] ∧
    ∀ status body,
      http_backend req = HttpOk status body →
      if is_storage_only op then
        (∀ data m,
           decode body = Return data →
           getRootAsResourceHashMessage (new_ByteBuffer data) = Return m →
           n = {| emitted := [VResourceHash m]; completion := Completed |}) ∧
        (∀ (encode64 : list Byte.byte → string)
           (serialise : ResourceHashMessage → list Byte.byte) m,
           body = VStr (encode64 (serialise m)) →
           decode (VStr (encode64 (serialise m))) = Return (serialise m) →
           getRootAsResourceHashMessage (new_ByteBuffer (serialise m)) = Return m →
           n = {| emitted := [VResourceHash m]; completion := Completed |})
      else
        signed_contents (trace w') = signed_contents (trace w) ++ [body].
Proof.
  intros Hrun.
  destruct (call_and_subscribe_cases op this payload w)
    as [(e & _ & He)|(logs & h1 & bodyData & Hnull & Hundef & _ & Hcall & Heq)];
    [congruence|].
  rewrite Hrun in Heq.
  assert (http_requests logs = [] ∧ signed_contents logs = []) as [Hlogs1 Hlogs2].
  { destruct Hcall as [(_ & -> & _)|(l & encoded & _ & _ & _ & _ & _ & ->)]; done. }
  exists (request_of op this bodyData).
  destruct (is_storage_only op); injection Heq as -> ->;
    cbn [fst snd heap trace after_events].
  - split.
    { rewrite <- app_assoc, !http_requests_app, Hlogs1. done. }
    intros status body Hok. rewrite Hok. unfold decoded_notifications.
    assert (∀ data m,
              decode body = Return data →
              getRootAsResourceHashMessage (new_ByteBuffer data) = Return m →
              match decode body with
              | Return data =>
                  match getRootAsResourceHashMessage (new_ByteBuffer data) with
                  | Return m => {| emitted := [VResourceHash m]; completion := Completed |}
                  | Throw e => {| emitted := []; completion := Errored (wrapError e) |}
                  end
              | Throw e => {| emitted := []; completion := Errored (wrapError e) |}
              end = {| emitted := [VResourceHash m]; completion := Completed |})
      as Hdecoded.
    { intros data m -> ->. done. }
    split; [done|].
    intros encode64 serialise m -> Hdecode Hread. by eapply Hdecoded.
  - split.
    { rewrite <- app_assoc, !http_requests_app, Hlogs1. simpl.
      by rewrite after_upload_no_request. }
    intros status body Hok.
    rewrite <- app_assoc, !signed_contents_app, Hlogs2. simpl. f_equal.
    pose proof (after_upload_steps (service_of op this) h1 payload
                  (http_backend (request_of op this bodyData))) as Hsteps.
    cbv zeta in Hsteps. rewrite Hok in Hsteps. rewrite Hok.
    destruct (signTransaction _ _ _ _ _); by rewrite Hsteps.
Qed.


(** ** The announce result *)

End Properties.

(** * Runs on the stand-ins

    Each statement above with a premise, at a request that meets it; and the
    requests at which the three amended claims fail as they were worded. *)
Section Runs.
#[local] Existing Instance Mock.types.
#[local] Existing Instance Mock.stored_collaborators.

Example base64_of_hi : Base64.encode_string "hi" = "aGk=".
Proof. reflexivity. Qed.

Example base64_there_and_back :
  Base64.decode (Base64.encode [Byte.x00; Byte.x01; Byte.x02; Byte.xff])
  = Some [Byte.x00; Byte.x01; Byte.x02; Byte.xff].
Proof. reflexivity. Qed.

(** A whole run of [uploadText]: the body is logged, the request posted,
    the body of the response signed, the signed transaction announced. *)
Example uploadText_on_the_stand_ins :
  let body :=
    Mock.flat_stringify
      (text_encoded_heap (Mock.world_with Mock.text_request) 1%positive "aGk=")
      Mock.record in
  call_and_subscribe (uploadText Mock.uploader Mock.record)
    (Mock.world_with Mock.text_request)
  = (Return (Mock.announced "signed(UW1IYXNoMQ==)by(sk)"),
     {| heap := text_encoded_heap (Mock.world_with Mock.text_request) 1%positive "aGk=";
        trace :=
          [EvConsoleLog body;
           EvHttpPost (upload_request "https://testnet2.gateway.proximax.io/upload/text" body);
           EvSignTransaction (VStr "UW1IYXNoMQ==") (VStr "sk") (VStr "pk") (VStr "PLAIN");
           EvAnnounceTransaction "signed(UW1IYXNoMQ==)by(sk)"] |}).
Proof. vm_compute. reflexivity. Qed.

(** A text request without its [text] field. *)
Lemma missing_required_field_throws_witness :
  let w := Mock.world_with (delete "text" Mock.text_request) in
  missing_required_field OpUploadText w Mock.record = true ∧
  ∃ msg,
    msg ∈ validation_messages ∧
    msg = (if is_null Mock.record then msg_payload_null
           else if is_text_operation OpUploadText then msg_text_required
           else msg_data_required) ∧
    invoke OpUploadText Mock.uploader Mock.record w = (Throw (new_Error msg), w) ∧
    call_and_subscribe (invoke OpUploadText Mock.uploader Mock.record) w
      = (Throw (new_Error msg), w) ∧
    http_requests (trace (call_and_subscribe (invoke OpUploadText Mock.uploader Mock.record) w).2)
      = http_requests (trace w).
Proof.
  intros w. split; [vm_compute; reflexivity|].
  apply (missing_required_field_throws OpUploadText Mock.uploader Mock.record w).
  vm_compute. reflexivity.
Defined.

(** A binary request whose metadata is prose. *)
Lemma invalid_metadata_throws_witness :
  let w := Mock.world_with (<["metadata" := VStr "to do"]> Mock.binary_request) in
  isJSONString (prop_value (heap w) (VRef 1%positive) "metadata") = false ∧
  ∃ msg,
    msg ∈ validation_messages ∧
    invoke OpUploadBinary Mock.uploader (VRef 1%positive) w = (Throw (new_Error msg), w) ∧
    call_and_subscribe (invoke OpUploadBinary Mock.uploader (VRef 1%positive)) w
      = (Throw (new_Error msg), w) ∧
    http_requests
      (trace (call_and_subscribe (invoke OpUploadBinary Mock.uploader (VRef 1%positive)) w).2)
      = http_requests (trace w) ∧
    (msg = msg_metadata_json ∨
     msg = if is_text_operation OpUploadBinary then msg_text_required
           else msg_data_required).
Proof.
  intros w. split; [vm_compute; reflexivity|].
  apply (invalid_metadata_throws OpUploadBinary Mock.uploader 1%positive w).
  vm_compute. reflexivity.
Defined.

(** C3, as it was worded, fails: [uploadTextToIFPSOnly] called with a
    record whose [text] is [hi] leaves the record with [aGk=] as its
    [text]. *)
Lemma request_text_field_is_overwritten :
  let w := Mock.world_with Mock.text_request in
  let w' := (call_and_subscribe (invoke OpUploadTextToIFPSOnly Mock.uploader Mock.record) w).2 in
  prop_value (heap w) Mock.record "text" = VStr "hi" ∧
  prop_value (heap w') Mock.record "text" = VStr "aGk=" ∧
  heap w' ≠ heap w.
Proof.
  intros w w'. split_and!; [vm_compute; reflexivity..|].
  intros Heq.
  assert (VStr "aGk=" = VStr "hi") as Habs; [|discriminate Habs].
  transitivity (prop_value (heap w') Mock.record "text").
  - vm_compute. reflexivity.
  - rewrite Heq. vm_compute. reflexivity.
Qed.

Lemma only_text_field_is_rewritten_witness :
  let w := Mock.world_with Mock.text_request in
  let result := call_and_subscribe (invoke OpUploadText Mock.uploader Mock.record) w in
  is_text_operation OpUploadText = true ∧
  result.1 = Return (Mock.announced "signed(UW1IYXNoMQ==)by(sk)") ∧
  ∃ l encoded,
    Mock.record = VRef l ∧
    btoa (prop_value (heap w) Mock.record "text") = Return encoded ∧
    heap result.2
      = <[l := <["text" := VStr encoded]> (object_at (heap w) l)]> (heap w) ∧
    prop_value (heap result.2) Mock.record "text" = VStr encoded ∧
    ∀ l' name,
      (l', name) ≠ (l, "text") →
      prop_value (heap result.2) (VRef l') name = prop_value (heap w) (VRef l') name.
Proof.
  intros w result.
  assert (result.1 = Return (Mock.announced "signed(UW1IYXNoMQ==)by(sk)")) as Hrun
    by (vm_compute; reflexivity).
  split; [reflexivity|]. split; [exact Hrun|].
  exact (proj2 (proj2 (only_text_field_is_rewritten OpUploadText Mock.uploader
                         Mock.record w)) eq_refl _ Hrun).
Defined.



Lemma storage_only_never_signs_nor_announces_witness :
  let w := Mock.world_with Mock.binary_request in
  is_storage_only OpUploadBinaryToIPFSOnly = true ∧
  ∃ new,
    trace (call_and_subscribe (invoke OpUploadBinaryToIPFSOnly Mock.uploader Mock.record) w).2
      = trace w ++ new ∧
    (StepSign ∉ steps new) ∧ (StepAnnounce ∉ steps new) ∧
    (steps new = [] ∨ steps new = [StepUpload]).
Proof.
  intros w. split; [reflexivity|].
  apply (storage_only_never_signs_nor_announces OpUploadBinaryToIPFSOnly Mock.uploader Mock.record w).
  reflexivity.
Defined.

(** C7, as it was worded, fails: the backend accepts the upload of
    [uploadBinary] and answers with the base64 text of a message, and the
    upload method, called with [returnHash] false, hands its subscriber
    the response as it came; the text reaches the signer undecoded, though
    decoding it would have given the message. *)
Lemma successful_upload_is_not_decoded :
  let w := Mock.world_with Mock.binary_request in
  match uploadBinaryToIPFS Mock.uploader Mock.record false w with
  | (Return source, w1) =>
      (source w1).1
      = {| emitted := [VResponse 200 (VStr "UW1IYXNoMQ==")]; completion := Completed |}
  | (Throw _, _) => False
  end ∧
  signed_contents (trace (call_and_subscribe (invoke OpUploadBinary Mock.uploader Mock.record) w).2)
    = [VStr "UW1IYXNoMQ=="] ∧
  read_resource_hash (VResponse 200 (VStr "UW1IYXNoMQ==")) w
    = (Return (VResourceHash "QmHash1"), w).
Proof. intros w. split_and!; vm_compute; reflexivity. Qed.

Lemma hash_only_operations_decode_witness :
  let w := Mock.world_with Mock.text_request in
  let result :=
    call_and_subscribe (invoke OpUploadTextToIFPSOnly Mock.uploader Mock.record) w in
  let m : ResourceHashMessage := "QmHash1" in
  let n := {| emitted := [VResourceHash m]; completion := Completed |} in
  result = (Return n, result.2) ∧
  Mock.stored = HttpOk 200 (VStr (Base64.encode (Mock.write_hash m))) ∧
  decode (VStr (Base64.encode (Mock.write_hash m))) = Return (Mock.write_hash m) ∧
  getRootAsResourceHashMessage (new_ByteBuffer (Mock.write_hash m)) = Return m ∧
  ∃ req,
    http_requests (trace result.2) = http_requests (trace w) ++ [req] ∧
    ∀ status body,
      http_backend req = HttpOk status body →
      if is_storage_only OpUploadTextToIFPSOnly then
        (∀ data m,
           decode body = Return data →
           getRootAsResourceHashMessage (new_ByteBuffer data) = Return m →
           n = {| emitted := [VResourceHash m]; completion := Completed |}) ∧
        (∀ (encode64 : list Byte.byte → string)
           (serialise : ResourceHashMessage → list Byte.byte) m,
           body = VStr (encode64 (serialise m)) →
           decode (VStr (encode64 (serialise m))) = Return (serialise m) →
           getRootAsResourceHashMessage (new_ByteBuffer (serialise m)) = Return m →
           n = {| emitted := [VResourceHash m]; completion := Completed |})
      else
        signed_contents (trace result.2) = signed_contents (trace w) ++ [body].
Proof.
  intros w result m n.
  assert (result = (Return n, result.2)) as Hrun by (vm_compute; reflexivity).
  split; [exact Hrun|].
  split; [vm_compute; reflexivity|].
  split; [vm_compute; reflexivity|].
  split; [vm_compute; reflexivity|].
  exact (hash_only_operations_decode OpUploadTextToIFPSOnly Mock.uploader Mock.record
           w n result.2 Hrun).
Defined.



(** A binary request without its [data] field. *)
Lemma validation_asymmetry_witness :
  let w := Mock.world_with (delete "data" Mock.binary_request) in
  prop_value (heap w) (VRef 1%positive) "data" = VUndefined ∧
  isJSONString (prop_value (heap w) (VRef 1%positive) "metadata") = true ∧
  ∃ observable,
    invoke OpUploadBinary Mock.uploader (VRef 1%positive) w = (Return observable, w) ∧
    http_requests (trace (observable w).2) =
      http_requests (trace w)
      ++ [request_of OpUploadBinary Mock.uploader (JSON_stringify (heap w) (VRef 1%positive))].
Proof.
  intros w.
  assert (prop_value (heap w) (VRef 1%positive) "data" = VUndefined) as Hdata
    by (vm_compute; reflexivity).
  assert (isJSONString (prop_value (heap w) (VRef 1%positive) "metadata") = true)
    as Hmeta by (vm_compute; reflexivity).
  split; [exact Hdata|]. split; [exact Hmeta|].
  exact (proj2 (proj2 (validation_asymmetry OpUploadBinary Mock.uploader 1%positive w)
                  eq_refl) Hdata Hmeta).
Defined.
End Runs.

(** * More properties of the service *)
Section FurtherProperties.
Context `{Collaborators}.
Implicit Types (w : World) (payload : JsVal) (this : RemoteUploadService)
  (op : Operation) (l : loc).

Lemma steps_of_app (t1 t2 : list Event) : steps (t1 ++ t2) = steps t1 ++ steps t2.
Proof. apply omap_app. Qed.

Lemma console_lines_app (t1 t2 : list Event) :
  console_lines (t1 ++ t2) = console_lines t1 ++ console_lines t2.
Proof. apply omap_app. Qed.

Lemma after_upload_no_console service h payload answer :
  console_lines (after_upload service h payload answer).2 = [].
Proof.
  pose proof (after_upload_steps service h payload answer) as Hsteps.
  cbv zeta in Hsteps.
  destruct answer; [destruct (signTransaction _ _ _ _ _)|]; by rewrite Hsteps.
Qed.

(** What a returned call leaves behind, whatever the operation. *)
Lemma invoke_returns op this payload w observable w1 :
  invoke op this payload w = (Return observable, w1) →
  ∃ bodyData,
    payload ≠ VNull ∧ payload ≠ VUndefined ∧
    observable = finish op this payload
                   (upload_observable (is_storage_only op) (request_of op this bodyData)) ∧
    (is_text_operation op = false ∧ w1 = w ∧ bodyData = JSON_stringify (heap w) payload
     ∨
     ∃ l encoded,
       is_text_operation op = true ∧ payload = VRef l ∧
       btoa (prop_value (heap w) payload "text") = Return encoded ∧
       bodyData = JSON_stringify (text_encoded_heap w l encoded) payload ∧
       w1 = {| heap := text_encoded_heap w l encoded;
               trace := trace w ++ [EvConsoleLog bodyData] |}).
Proof.
  intros Hrun.
  destruct (invoke_cases op this payload w)
    as [[e He]|[(Htext & Hnull & Hundef & Heq)|(l & encoded & Htext & -> & Hbtoa & Heq)]].
  - congruence.
  - rewrite Hrun in Heq. injection Heq as -> ->.
    eexists. split_and!; [done..|]. left. done.
  - rewrite Hrun in Heq. injection Heq as -> ->.
    eexists. split_and!; [done..|]. right. exists l, encoded. done.
Qed.

(** X3. Called without a request ([undefined]), each of the four
    operations throws a [TypeError] at the call, the one of reading a field
    of [undefined], and not one of the validation errors: the check at the
    head of the methods is for [null] only.  The world is left as it was. *)
Theorem undefined_payload_is_a_type_error op this w :
  ∃ message,
    invoke op this VUndefined w = (Throw (VError "TypeError" message), w) ∧
    call_and_subscribe (invoke op this VUndefined) w
      = (Throw (VError "TypeError" message), w) ∧
    ∀ msg, VError "TypeError" message ≠ new_Error msg.
Proof.
  assert (∃ message, invoke op this VUndefined w = (Throw (VError "TypeError" message), w))
    as [message Hrun].
  { rewrite invoke_run. destruct (is_text_operation op).
    - unfold uploadTextToIPFS, mbind, M_bind, bind. simpl. eauto.
    - rewrite uploadBinaryToIPFS_run. eauto. }
  exists message. split_and!; [done|by apply call_and_subscribe_throw|].
  intros msg. unfold new_Error. congruence.
Qed.

(** X4. When the backend refuses the upload of [uploadText] or
    [uploadBinary], the subscriber is told the error of the backend as it
    is, with no value before it ([Helpers.handleError] is not on this
    path), and the upload is the only step taken. *)
Theorem pipeline_delivers_transport_error_unwrapped op this payload w n w' :
  is_storage_only op = false →
  call_and_subscribe (invoke op this payload) w = (Return n, w') →
  ∃ req,
    http_requests (trace w') = http_requests (trace w) ++ [req] ∧
    ∀ err,
      http_backend req = HttpFail err →
      n = {| emitted := []; completion := Errored err |} ∧
      steps (trace w') = steps (trace w) ++ [StepUpload].
Proof.
  intros Hpipeline Hrun.
  destruct (call_and_subscribe_cases op this payload w)
    as [(e & _ & He)|(logs & h1 & bodyData & Hnull & Hundef & _ & Hcall & Heq)];
    [congruence|].
  rewrite Hrun, Hpipeline in Heq. injection Heq as -> ->.
  assert (http_requests logs = [] ∧ steps logs = []) as [Hlogs1 Hlogs2].
  { destruct Hcall as [(_ & -> & _)|(l & encoded & _ & _ & _ & _ & _ & ->)]; done. }
  exists (request_of op this bodyData). cbn [fst snd heap trace after_events].
  split.
  - rewrite <- app_assoc, !http_requests_app, Hlogs1. simpl.
    by rewrite after_upload_no_request.
  - intros err Herr. rewrite Herr. simpl.
    split; [done|]. by rewrite <- app_assoc, !steps_of_app, Hlogs2.
Qed.

(** X5. In [uploadTextToIFPSOnly] and [uploadBinaryToIPFSOnly] every
    failure after the call (the backend refuses, [decode] throws, the
    reader throws) goes through [Helpers.handleError]: the subscriber is
    told the wrapped error and no value; in every case it gets at most one
    value. *)
Theorem storage_only_failures_are_wrapped op this payload w n w' :
  is_storage_only op = true →
  call_and_subscribe (invoke op this payload) w = (Return n, w') →
  ∃ req,
    http_requests (trace w') = http_requests (trace w) ++ [req] ∧
    (∀ err,
       http_backend req = HttpFail err →
       n = {| emitted := []; completion := Errored (wrapError err) |}) ∧
    (∀ status body e,
       http_backend req = HttpOk status body →
       decode body = Throw e →
       n = {| emitted := []; completion := Errored (wrapError e) |}) ∧
    (∀ status body data e,
       http_backend req = HttpOk status body →
       decode body = Return data →
       getRootAsResourceHashMessage (new_ByteBuffer data) = Throw e →
       n = {| emitted := []; completion := Errored (wrapError e) |}) ∧
    (length (emitted n) ≤ 1)%nat.
Proof.
  intros Honly Hrun.
  destruct (call_and_subscribe_cases op this payload w)
    as [(e & _ & He)|(logs & h1 & bodyData & Hnull & Hundef & _ & Hcall & Heq)];
    [congruence|].
  rewrite Hrun, Honly in Heq. injection Heq as -> ->.
  assert (http_requests logs = []) as Hlogs.
  { destruct Hcall as [(_ & -> & _)|(l & encoded & _ & _ & _ & _ & _ & ->)]; done. }
  exists (request_of op this bodyData). cbn [fst snd heap trace after_events].
  split_and!.
  - by rewrite <- app_assoc, !http_requests_app, Hlogs.
  - by intros err ->.
  - intros status body e Hok Hdecode. rewrite Hok. simpl. by rewrite Hdecode.
  - intros status body data e Hok Hdecode Hread. rewrite Hok. simpl.
    by rewrite Hdecode, Hread.
  - unfold decoded_notifications.
    destruct (http_backend _); [|simpl; lia].
    destruct (decode _); [|simpl; lia].
    destruct (getRootAsResourceHashMessage _); simpl; lia.
Qed.

(** X6. The body of the request is fixed when the method is called: the
    observable it returns posts the same request in whatever world it is
    subscribed to, and leaves the heap alone.  The keys and the message
    type, however, are read from the record when the response has come:
    they are those of the heap of the subscription. *)
Theorem body_fixed_at_call op this payload w observable w1 :
  invoke op this payload w = (Return observable, w1) →
  ∃ bodyData,
    ∀ w2,
      heap (observable w2).2 = heap w2 ∧
      http_requests (trace (observable w2).2)
        = http_requests (trace w2) ++ [request_of op this bodyData] ∧
      (is_storage_only op = false →
       ∀ status body,
         http_backend (request_of op this bodyData) = HttpOk status body →
         ∃ rest,
           trace (observable w2).2
           = trace w2
             ++ EvHttpPost (request_of op this bodyData)
             :: EvSignTransaction body
                  (prop_value (heap w2) payload "senderPrivateKey")
                  (prop_value (heap w2) payload "recieverPublicKey")
                  (prop_value (heap w2) payload "messageType")
             :: rest).
Proof.
  intros Hrun.
  destruct (invoke_returns _ _ _ _ _ _ Hrun) as (bodyData & Hnull & Hundef & -> & _).
  exists bodyData. intros w2. rewrite finish_run by done.
  destruct (is_storage_only op); cbn [fst snd heap trace after_events].
  - split_and!; [done| |done]. by rewrite http_requests_app.
  - split_and!; [done| |].
    + rewrite http_requests_app. simpl. by rewrite after_upload_no_request.
    + intros _ status body Hok. rewrite Hok.
      pose proof (after_upload_steps (service_of op this) (heap w2) payload
                    (HttpOk status body)) as Hsteps.
      cbv beta iota zeta in Hsteps.
      destruct (signTransaction (service_of op this) body _ _ _);
        rewrite Hsteps; eauto.
Qed.

Ltac unfold_method :=
  unfold mbind, M_bind, bind, mret, M_ret, ret, throw, lift, stringify,
    read_heap, console_log, emit_event, get_prop, set_prop; simpl.

(** A text upload of a record that passes the checks and that [btoa]
    encodes. *)
Lemma text_upload_run op this l w encoded :
  is_text_operation op = true →
  passes_validation op w l = true →
  btoa (prop_value (heap w) (VRef l) "text") = Return encoded →
  heap (call_and_subscribe (invoke op this (VRef l)) w).2
    = text_encoded_heap w l encoded ∧
  http_requests (trace (call_and_subscribe (invoke op this (VRef l)) w).2)
    = http_requests (trace w)
      ++ [request_of op this (JSON_stringify (text_encoded_heap w l encoded) (VRef l))].
Proof.
  intros Htext Hvalid Hbtoa. unfold call_and_subscribe.
  rewrite (passes_validation_run _ this _ _ Hvalid), Htext, Hbtoa.
  cbv beta iota zeta. rewrite finish_run by done.
  destruct (is_storage_only op); cbn [fst snd heap trace after_events];
    (split; [done|]); rewrite !http_requests_app; simpl;
    rewrite ?after_upload_no_request, ?app_nil_r; done.
Qed.

(** X7. A text upload is not idempotent on its request: after one upload
    of a record the [text] field holds the encoded text, so a second upload
    of the same record passes the checks again and posts the encoding of
    the encoding. *)
Theorem second_text_upload_encodes_again op1 op2 this l w once twice :
  is_text_operation op1 = true →
  is_text_operation op2 = true →
  passes_validation op1 w l = true →
  btoa (prop_value (heap w) (VRef l) "text") = Return once →
  once ≠ EmptyString →
  btoa (VStr once) = Return twice →
  let w1 := (call_and_subscribe (invoke op1 this (VRef l)) w).2 in
  let w2 := (call_and_subscribe (invoke op2 this (VRef l)) w1).2 in
  prop_value (heap w1) (VRef l) "text" = VStr once ∧
  prop_value (heap w2) (VRef l) "text" = VStr twice ∧
  http_requests (trace w2)
    = http_requests (trace w)
      ++ [request_of op1 this (JSON_stringify (heap w1) (VRef l));
          request_of op2 this (JSON_stringify (heap w2) (VRef l))].
Proof.
  intros Htext1 Htext2 Hvalid Honce Hnonempty Htwice w1 w2.
  destruct (text_upload_run op1 this l w once Htext1 Hvalid Honce) as [Hheap1 Hreq1].
  fold w1 in Hheap1, Hreq1.
  assert (prop_value (heap w1) (VRef l) "text" = VStr once) as Htextfield1.
  { rewrite Hheap1, text_encoded_heap_lookup. by rewrite decide_True. }
  assert (passes_validation op2 w1 l = true) as Hvalid2.
  { unfold passes_validation in *. rewrite Htext1 in Hvalid. rewrite Htext2.
    cbv zeta in *. rewrite Htextfield1.
    apply andb_true_iff in Hvalid as [_ Hmeta].
    apply andb_true_iff. split.
    - simpl. apply negb_true_iff, String.eqb_neq. done.
    - rewrite Hheap1, text_encoded_heap_lookup.
      rewrite decide_False by (intros [_ [=]]). done. }
  assert (btoa (prop_value (heap w1) (VRef l) "text") = Return twice) as Htwice1
    by (by rewrite Htextfield1).
  destruct (text_upload_run op2 this l w1 twice Htext2 Hvalid2 Htwice1)
    as [Hheap2 Hreq2].
  fold w2 in Hheap2, Hreq2.
  split_and!; [done| |].
  - rewrite Hheap2, text_encoded_heap_lookup. by rewrite decide_True.
  - rewrite Hreq2, Hreq1, Hheap2, Hheap1, <- app_assoc. done.
Qed.


(** The flag [returnHash] chooses the observable and nothing else. *)
Lemma upload_method_flag (text : bool) this payload w :
  ∃ outcome : JsVal + World,
    ∀ returnHash,
      (if text then uploadTextToIPFS else uploadBinaryToIPFS) this payload returnHash w
      = match outcome with
        | inl e => (Throw e, w)
        | inr w1 =>
            (Return (upload_observable returnHash
                       (upload_request
                          (if text then baseUrl this +:+ "upload/text"
                           else baseUrl this +:+ "upload/bytes/binary")
                          (JSON_stringify (heap w1) payload))), w1)
        end ∧
      match outcome with
      | inl _ => True
      | inr w1 => payload ≠ VNull ∧ payload ≠ VUndefined ∧
                  console_lines (trace w1) =
                    console_lines (trace w)
                    ++ (if text then [JSON_stringify (heap w1) payload] else []) ∧
                  http_requests (trace w1) = http_requests (trace w)
      end.
Proof.
  destruct text.
  - assert ((∃ l, payload = VRef l) ∨ (∀ l, payload ≠ VRef l)) as [[l ->]|Hother]
      by (destruct payload; eauto; right; congruence).
    + pose proof (uploadTextToIPFS_run_ref this l) as Hrun. cbv zeta in Hrun.
      destruct (is_null (prop_value (heap w) (VRef l) "text")
                || is_undefined (prop_value (heap w) (VRef l) "text")
                || is_empty_string (prop_value (heap w) (VRef l) "text")) eqn:Hreq.
      { exists (inl (new_Error msg_text_required)). intros rh.
        by rewrite Hrun, Hreq. }
      destruct (negb (isJSONString (prop_value (heap w) (VRef l) "metadata"))) eqn:Hmeta.
      { exists (inl (new_Error msg_metadata_json)). intros rh.
        by rewrite Hrun, Hreq, Hmeta. }
      destruct (btoa (prop_value (heap w) (VRef l) "text")) as [encoded|e] eqn:Hbtoa.
      * exists (inr {| heap := text_encoded_heap w l encoded;
                       trace := trace w
                                ++ [EvConsoleLog
                                      (JSON_stringify (text_encoded_heap w l encoded)
                                         (VRef l))] |}).
        intros rh. rewrite Hrun, Hreq, Hmeta, Hbtoa. simpl.
        split_and!; [done..| |].
        -- by rewrite console_lines_app.
        -- rewrite http_requests_app. simpl. by rewrite app_nil_r.
      * exists (inl e). intros rh. by rewrite Hrun, Hreq, Hmeta, Hbtoa.
    + destruct (uploadTextToIPFS_run_other this payload true w Hother) as (e & _ & _).
      assert (∃ e, ∀ rh, uploadTextToIPFS this payload rh w = (Throw e, w)) as [e' He'].
      { unfold uploadTextToIPFS. unfold_method.
        destruct payload; simpl; eauto. exfalso. by eapply Hother. }
      exists (inl e'). intros rh. by rewrite He'.
  - exists (match payload with
            | VNull => inl (new_Error msg_payload_null)
            | VUndefined =>
                inl (VError "TypeError" "Cannot read property 'data' of undefined")
            | _ =>
                if is_null (prop_value (heap w) payload "data")
                then inl (new_Error msg_data_required)
                else if negb (isJSONString (prop_value (heap w) payload "metadata"))
                then inl (new_Error msg_metadata_json)
                else inr w
            end).
    intros rh. rewrite uploadBinaryToIPFS_run.
    destruct payload; simpl; try done;
      repeat match goal with
             | |- context [if ?b then _ else _] => destruct b; simpl
             end;
      rewrite ?app_nil_r; done.
Qed.

(** X9. [uploadText] and [uploadTextToIFPSOnly] (and likewise the two
    binary operations) treat a request alike up to the response: the call
    throws the same error or returns, the heap is left the same, the same
    request is posted and the same lines are logged. *)
Theorem variants_post_the_same_request op1 op2 this payload w :
  is_text_operation op1 = is_text_operation op2 →
  let r1 := call_and_subscribe (invoke op1 this payload) w in
  let r2 := call_and_subscribe (invoke op2 this payload) w in
  heap r1.2 = heap r2.2 ∧
  http_requests (trace r1.2) = http_requests (trace r2.2) ∧
  console_lines (trace r1.2) = console_lines (trace r2.2) ∧
  (∀ e, r1.1 = Throw e ↔ r2.1 = Throw e).
Proof.
  intros Htext. cbv zeta. unfold call_and_subscribe. rewrite !invoke_run, <- Htext.
  destruct (upload_method_flag (is_text_operation op1) this payload w)
    as [[e|w1] Hflag].
  - destruct (Hflag (is_storage_only op1)) as [-> _].
    destruct (Hflag (is_storage_only op2)) as [-> _]. done.
  - destruct (Hflag (is_storage_only op1)) as [-> (Hnull & Hundef & _)].
    destruct (Hflag (is_storage_only op2)) as [-> _].
    assert (∀ op, is_text_operation op = is_text_operation op1 →
              upload_request
                (if is_text_operation op1 then baseUrl this +:+ "upload/text"
                 else baseUrl this +:+ "upload/bytes/binary")
                (JSON_stringify (heap w1) payload)
              = request_of op this (JSON_stringify (heap w1) payload)) as Hreq.
    { intros op Hop. unfold request_of, endpoint_of. by rewrite Hop. }
    rewrite (Hreq op1 eq_refl) at 1 2 3 4. rewrite (Hreq op2 (eq_sym Htext)).
    rewrite !finish_run by done.
    destruct (is_storage_only op1), (is_storage_only op2);
      cbn [fst snd heap trace after_events];
      rewrite !http_requests_app, !console_lines_app; simpl;
      rewrite ?after_upload_no_request, ?after_upload_no_console;
      (split_and!; [done..|]); split; intros [=].
Qed.

(** ** The methods out of use *)

Lemma uploadBase64Binary_run this payload w :
  uploadBase64Binary this payload w =
  match payload with
  | VNull => (Throw (new_Error msg_payload_null), w)
  | VUndefined =>
      (Throw (VError "TypeError" "Cannot read property 'data' of undefined"), w)
  | _ =>
      if is_null (prop_value (heap w) payload "data")
      then (Throw (new_Error msg_data_required), w)
      else if negb (isJSONString (prop_value (heap w) payload "metadata"))
      then (Throw (new_Error msg_metadata_json), w)
      else (Return (upload_observable true
                      (upload_request (baseUrl this +:+ "upload/base64/binary")
                         (JSON_stringify (heap w) payload))), w)
  end.
Proof.
  unfold uploadBase64Binary, upload_observable. unfold_method.
  destruct payload; simpl; try reflexivity;
    repeat match goal with
           | |- context [if ?b then _ else _] => destruct b; simpl
           end; reflexivity.
Qed.

(** X10. [uploadBase64Binary] is [uploadBinaryToIPFSOnly] on another URL:
    it throws the same errors on the same requests, posts the same request
    but for the URL, and, for a backend that answers both alike, tells its
    subscriber the same. *)
Theorem uploadBase64Binary_differs_in_url_only this payload w :
  let body := JSON_stringify (heap w) payload in
  let req64 := upload_request (baseUrl this +:+ "upload/base64/binary") body in
  let reqbin := upload_request (baseUrl this +:+ "upload/bytes/binary") body in
  let r64 := call_and_subscribe (uploadBase64Binary this payload) w in
  let rbin := call_and_subscribe (uploadBinaryToIPFSOnly this payload) w in
  (∀ e, r64 = (Throw e, w) ↔ rbin = (Throw e, w)) ∧
  (∀ e, r64.1 = Throw e → r64.2 = w) ∧
  (∀ n, r64.1 = Return n →
     r64.2 = after_events w [EvHttpPost req64] ∧
     rbin.2 = after_events w [EvHttpPost reqbin] ∧
     (http_backend req64 = http_backend reqbin → rbin.1 = Return n)).
Proof.
  cbv zeta. unfold call_and_subscribe, uploadBinaryToIPFSOnly.
  rewrite uploadBase64Binary_run, uploadBinaryToIPFS_run.
  destruct payload; cbv beta iota;
    try (split_and!; [done|done|intros ? [=]]);
    (destruct (is_null (prop_value _ _ _)); cbv beta iota;
     [split_and!; [done|done|intros ? [=]]|]);
    (destruct (negb (isJSONString _)); cbv beta iota;
     [split_and!; [done|done|intros ? [=]]|]);
    rewrite !upload_observable_decoded_run; cbn [fst snd];
    (split_and!; [split; intros [=]|intros e [=]|]);
    intros ? [= <-]; (split_and!; [done..|]); by intros ->.
Qed.

Lemma uploadSignAnnounce_run this pvkey pubkey messageType payload w :
  uploadSignAnnounce this (Value pvkey) (Value pubkey) (Value messageType) payload w =
  match payload with
  | VNull => (Throw (new_Error msg_payload_null), w)
  | VUndefined =>
      (Throw (VError "TypeError" "Cannot read property 'data' of undefined"), w)
  | _ =>
      if is_null (prop_value (heap w) payload "data")
      then (Throw (new_Error msg_data_required), w)
      else if negb (isJSONString (prop_value (heap w) payload "metadata"))
      then (Throw (new_Error msg_metadata_json), w)
      else
        (Return (http_post
                   {| url := baseUrl this +:+ "upload/sign/announce";
                      req_body := JSON_stringify (heap w) payload;
                      headers :=
                        [("Content-Type", "application/json"); ("Accept", "*/*");
                         ("x-pvkey", pvkey); ("x-pubkey", pubkey);
                         ("messageType", messageType)];
                      responseType := "json";
                      observe := "response";
                      reportProgress := true |}), w)
  end.
Proof.
  unfold uploadSignAnnounce. unfold_method.
  destruct payload; simpl; try reflexivity;
    repeat match goal with
           | |- context [if ?b then _ else _] => destruct b; simpl
           end; reflexivity.
Qed.

(** X11. [uploadSignAnnounce] checks the private key, then the public key,
    then the message type, each for [null] and [undefined], before it looks
    at the request; with the three present it throws on a request exactly
    when [uploadBinaryToIPFSOnly] does, with the same error. *)
Theorem uploadSignAnnounce_checks_keys_first this pvkey pubkey messageType payload w :
  let result := uploadSignAnnounce this pvkey pubkey messageType payload w in
  (is_absent pvkey = true →
   result = (Throw (new_Error msg_private_key_required), w)) ∧
  (is_absent pvkey = false → is_absent pubkey = true →
   result = (Throw (new_Error msg_public_key_required), w)) ∧
  (is_absent pvkey = false → is_absent pubkey = false → is_absent messageType = true →
   result = (Throw (new_Error msg_message_type_required), w)) ∧
  (is_absent pvkey = false → is_absent pubkey = false → is_absent messageType = false →
   ∀ e w', result = (Throw e, w') ↔ uploadBinaryToIPFSOnly this payload w = (Throw e, w')).
Proof.
  cbv zeta.
  destruct pvkey as [| |pv]; cbn [is_absent]; [split_and!; done..|].
  destruct pubkey as [| |pb]; cbn [is_absent]; [split_and!; done..|].
  destruct messageType as [| |mt]; cbn [is_absent]; [split_and!; done..|].
  split_and!; [done..|].
  intros _ _ _ e w'. unfold uploadBinaryToIPFSOnly.
  rewrite uploadSignAnnounce_run, uploadBinaryToIPFS_run.
  destruct payload; cbv beta iota; try done;
    (destruct (is_null (prop_value _ _ _)); cbv beta iota; [done|]);
    (destruct (negb (isJSONString _)); cbv beta iota; [done|]);
    split; intros [=].
Qed.

(** X12. Whatever its name, [uploadSignAnnounce] signs and announces
    nothing itself: a call that returns has the three strings, and the
    subscription does one thing, a post to [upload/sign/announce] of the
    serialised record with the two keys and the message type as headers;
    the subscriber gets the response, or the error of the backend, as it
    is. *)
Theorem uploadSignAnnounce_only_posts this pv pb mt payload w n w' :
  call_and_subscribe (uploadSignAnnounce this pv pb mt payload) w = (Return n, w') →
  ∃ pvkey pubkey messageType req,
    pv = Value pvkey ∧ pb = Value pubkey ∧ mt = Value messageType ∧
    w' = after_events w [EvHttpPost req] ∧
    url req = baseUrl this +:+ "upload/sign/announce" ∧
    req_body req = JSON_stringify (heap w) payload ∧
    headers req =
      [("Content-Type", "application/json"); ("Accept", "*/*");
       ("x-pvkey", pvkey); ("x-pubkey", pubkey); ("messageType", messageType)] ∧
    n = match http_backend req with
        | HttpOk status body =>
            {| emitted := [VResponse status body]; completion := Completed |}
        | HttpFail err => {| emitted := []; completion := Errored err |}
        end.
Proof.
  unfold call_and_subscribe.
  destruct pv as [| |pvkey]; [intros [=]..|].
  destruct pb as [| |pubkey]; [intros [=]..|].
  destruct mt as [| |messageType]; [intros [=]..|].
  rewrite uploadSignAnnounce_run.
  destruct payload; cbv beta iota; try (intros [=]; fail);
    (destruct (is_null (prop_value _ _ _)); cbv beta iota; [intros [=]|]);
    (destruct (negb (isJSONString _)); cbv beta iota; [intros [=]|]);
    rewrite http_post_run; intros [= <- <-];
    eexists _, _, _, _; split_and!; reflexivity.
Qed.
End FurtherProperties.

Section CallProperties.
Context `{Collaborators}.
Variable Blob : Type.

(** X13. A call [uploadGenerateSign] returns has its three strings and a
    file that is not [null]; its form holds the file, and its query
    parameters are, in this order, [keywords] unless it is [null],
    [metadata] unless it is [null], and [messageType], always: an optional
    argument left out ([undefined]) is still set. *)
Theorem uploadGenerateSign_query_parameters this pvkey pubkey messageType
    (file : Nullable Blob) keywords metadata call :
  uploadGenerateSign this pvkey pubkey messageType file keywords metadata
    = Return call →
  is_absent pvkey = false ∧ is_absent pubkey = false ∧ is_absent messageType = false ∧
  nullable_is_null file = false ∧
  call_body call = BodyFormData [("file", file)] ∧
  call_params call =
    (if nullable_is_null keywords then [] else [("keywords", keywords)])
    ++ (if nullable_is_null metadata then [] else [("metadata", metadata)])
    ++ [("messageType", messageType)].
Proof.
  unfold uploadGenerateSign.
  destruct pvkey as [| |pv]; [intros [=]..|].
  destruct pubkey as [| |pb]; [intros [=]..|].
  destruct messageType as [| |mt]; simpl; [intros [=]..|].
  destruct file as [| |blob]; simpl; [intros [=]| |];
    destruct keywords, metadata; simpl; intros [= <-]; done.
Qed.

(** X14. [uploadCleanup] refuses [null] and [undefined] and nothing else:
    every string, the empty one too, gives a post without body to
    [upload/cleanup] whose one query parameter is that string. *)
Theorem uploadCleanup_rejects_only_absent this multihash :
  (is_absent multihash = true →
   uploadCleanup Blob this multihash = Throw (new_Error msg_multihash_required)) ∧
  (∀ m, multihash = Value m →
     ∃ call,
       uploadCleanup Blob this multihash = Return call ∧
       call_url call = baseUrl this +:+ "upload/cleanup" ∧
       call_body call = BodyNull ∧
       call_params call = [("multihash", Value m)]).
Proof.
  split.
  - by destruct multihash.
  - intros m ->. eexists. split_and!; reflexivity.
Qed.
End CallProperties.

Section ConstructorProperties.
Context `{Collaborators}.

(** X1. The constructor takes an injected value when it is truthy: an
    absent or empty base URL gives the default gateway, an absent or zero
    network gives [TEST_NET], anything else is kept.  So the base URL of a
    constructed service is never empty. *)
Theorem constructed_service_defaults (b : option string) (n : option Z) :
  let this := new_RemoteUploadService b n in
  baseUrl this ≠ EmptyString ∧
  (b = None ∨ b = Some EmptyString →
   baseUrl this = "https://testnet2.gateway.proximax.io/") ∧
  (∀ u, b = Some u → u ≠ EmptyString → baseUrl this = u) ∧
  (n = None ∨ n = Some 0 → nemNetwork this = TEST_NET) ∧
  (∀ k, n = Some k → k ≠ 0 → nemNetwork this = k).
Proof.
  cbv zeta. unfold new_RemoteUploadService. simpl. split_and!.
  - destruct b as [u|]; [|done].
    destruct (String.eqb_spec u EmptyString); done.
  - by intros [->| ->].
  - intros u -> Hu. by apply String.eqb_neq in Hu as ->.
  - by intros [->| ->].
  - intros k -> Hk. by apply Z.eqb_neq in Hk as ->.
Qed.

End ConstructorProperties.

Lemma assoc_in {A : Type} (k : Z) (l : list (Z * A)) (a : A) :
  assoc k l = Some a → In (k, a) l.
Proof.
  induction l as [|[k' a'] rest IH]; simpl; [done|].
  destruct (Z.eqb_spec k k') as [->|Hne].
  - intros [= ->]. by left.
  - intros Hrest. right. by apply IH.
Qed.

(** X15. The numbers of [TypeNemAnnounceResult] and its members determine
    each other: the reverse mapping of the number of a member is this
    member, and a number the reverse mapping knows is the number of the
    member it gives. *)
Theorem type_value_round_trip :
  (∀ t, TypeNemAnnounceResult_of_value (TypeNemAnnounceResult_value t) = Some t) ∧
  (∀ n t, TypeNemAnnounceResult_of_value n = Some t → TypeNemAnnounceResult_value t = n).
Proof.
  split.
  - by intros [].
  - intros n t. unfold TypeNemAnnounceResult_of_value.
    destruct (Z.eqb_spec n 1) as [->|_]; [by intros [= <-]|].
    destruct (Z.eqb_spec n 2) as [->|_]; [by intros [= <-]|].
    destruct (Z.eqb_spec n 4) as [->|_]; [by intros [= <-]|]. done.
Qed.

(** X16. The type [CodeNemAnnounceResult] and the documented table agree
    on the codes: every code the table documents, under any type, is a
    member of the type, and every member is documented as a validation
    code. *)
Theorem documented_codes_are_the_members :
  (∀ ty c meaning,
     documented_meaning ty c = Some meaning → is_CodeNemAnnounceResult c = true) ∧
  (∀ c, is_CodeNemAnnounceResult c = true → is_Some (documented_meaning 1 c)).
Proof.
  split.
  - intros ty c meaning. unfold documented_meaning.
    destruct (assoc ty documented_codes) as [section|] eqn:Hsection; [|done].
    intros Hcode%assoc_in. apply assoc_in in Hsection.
    assert (forallb (λ entry : Z * list (Z * string),
                       forallb (λ line : Z * string, is_CodeNemAnnounceResult line.1)
                         entry.2)
              documented_codes = true) as Hall by (vm_compute; reflexivity).
    rewrite forallb_forall in Hall. specialize (Hall _ Hsection). simpl in Hall.
    rewrite forallb_forall in Hall. exact (Hall _ Hcode).
  - intros c Hc. unfold is_CodeNemAnnounceResult in Hc.
    apply bool_decide_eq_true in Hc. unfold CodeNemAnnounceResult_members in Hc.
    repeat (apply elem_of_cons in Hc as [->|Hc]; [vm_compute; eauto|]).
    by apply elem_of_nil in Hc.
Qed.

(** * Runs of the further properties *)
Section FurtherRuns.
#[local] Existing Instance Mock.types.
#[local] Existing Instance Mock.stored_collaborators.

(** A text request that passes the checks: the call returns, and the
    observable is the pipeline on the body of the call. *)
Lemma body_fixed_at_call_witness :
  let w := Mock.world_with Mock.text_request in
  let bodyData :=
    JSON_stringify (text_encoded_heap w 1%positive "aGk=") Mock.record in
  let observable :=
    finish OpUploadText Mock.uploader Mock.record
      (upload_observable (is_storage_only OpUploadText)
         (request_of OpUploadText Mock.uploader bodyData)) in
  let w1 :=
    {| heap := text_encoded_heap w 1%positive "aGk=";
       trace := trace w ++ [EvConsoleLog bodyData] |} in
  invoke OpUploadText Mock.uploader Mock.record w = (Return observable, w1) ∧
  ∃ bodyData,
    ∀ w2,
      heap (observable w2).2 = heap w2 ∧
      http_requests (trace (observable w2).2)
        = http_requests (trace w2) ++ [request_of OpUploadText Mock.uploader bodyData] ∧
      (is_storage_only OpUploadText = false →
       ∀ status body,
         http_backend (request_of OpUploadText Mock.uploader bodyData)
           = HttpOk status body →
         ∃ rest,
           trace (observable w2).2
           = trace w2
             ++ EvHttpPost (request_of OpUploadText Mock.uploader bodyData)
             :: EvSignTransaction body
                  (prop_value (heap w2) Mock.record "senderPrivateKey")
                  (prop_value (heap w2) Mock.record "recieverPublicKey")
                  (prop_value (heap w2) Mock.record "messageType")
             :: rest).
Proof.
  intros w bodyData observable w1.
  assert (invoke OpUploadText Mock.uploader Mock.record w = (Return observable, w1))
    as Hrun by reflexivity.
  split; [exact Hrun|].
  exact (body_fixed_at_call OpUploadText Mock.uploader Mock.record w observable w1 Hrun).
Defined.

Lemma second_text_upload_encodes_again_witness :
  let w := Mock.world_with Mock.text_request in
  let w1 := (call_and_subscribe (invoke OpUploadText Mock.uploader Mock.record) w).2 in
  let w2 := (call_and_subscribe (invoke OpUploadText Mock.uploader Mock.record) w1).2 in
  passes_validation OpUploadText w 1%positive = true ∧
  btoa (prop_value (heap w) (VRef 1%positive) "text") = Return "aGk=" ∧
  btoa (VStr "aGk=") = Return "YUdrPQ==" ∧
  prop_value (heap w1) (VRef 1%positive) "text" = VStr "aGk=" ∧
  prop_value (heap w2) (VRef 1%positive) "text" = VStr "YUdrPQ==" ∧
  http_requests (trace w2)
    = http_requests (trace w)
      ++ [request_of OpUploadText Mock.uploader
            (JSON_stringify (heap w1) (VRef 1%positive));
          request_of OpUploadText Mock.uploader
            (JSON_stringify (heap w2) (VRef 1%positive))].
Proof.
  intros w w1 w2.
  assert (passes_validation OpUploadText w 1%positive = true) as Hvalid
    by (vm_compute; reflexivity).
  assert (btoa (prop_value (heap w) (VRef 1%positive) "text") = Return "aGk=") as Honce
    by (vm_compute; reflexivity).
  assert (btoa (VStr "aGk=") = Return "YUdrPQ==") as Htwice
    by (vm_compute; reflexivity).
  split; [exact Hvalid|]. split; [exact Honce|]. split; [exact Htwice|].
  refine (second_text_upload_encodes_again OpUploadText OpUploadText Mock.uploader
            1%positive w "aGk=" "YUdrPQ==" eq_refl eq_refl Hvalid Honce _ Htwice).
  discriminate.
Defined.

Lemma variants_post_the_same_request_witness :
  let w := Mock.world_with Mock.text_request in
  let r1 := call_and_subscribe (invoke OpUploadText Mock.uploader Mock.record) w in
  let r2 := call_and_subscribe (invoke OpUploadTextToIFPSOnly Mock.uploader Mock.record) w in
  is_text_operation OpUploadText = is_text_operation OpUploadTextToIFPSOnly ∧
  heap r1.2 = heap r2.2 ∧
  http_requests (trace r1.2) = http_requests (trace r2.2) ∧
  console_lines (trace r1.2) = console_lines (trace r2.2) ∧
  (∀ e, r1.1 = Throw e ↔ r2.1 = Throw e).
Proof.
  intros w r1 r2. split; [reflexivity|].
  exact (variants_post_the_same_request OpUploadText OpUploadTextToIFPSOnly
           Mock.uploader Mock.record w eq_refl).
Defined.

Lemma uploadSignAnnounce_only_posts_witness :
  let w := Mock.world_with Mock.binary_request in
  let result :=
    call_and_subscribe
      (uploadSignAnnounce Mock.uploader (Value "sk") (Value "pk") (Value "PLAIN")
         Mock.record) w in
  let n :=
    {| emitted := [VResponse 200 (VStr "UW1IYXNoMQ==")]; completion := Completed |} in
  result = (Return n, result.2) ∧
  ∃ pvkey pubkey messageType req,
    Value "sk" = Value pvkey ∧ Value "pk" = Value pubkey ∧
    Value "PLAIN" = Value messageType ∧
    result.2 = after_events w [EvHttpPost req] ∧
    url req = baseUrl Mock.uploader +:+ "upload/sign/announce" ∧
    req_body req = JSON_stringify (heap w) Mock.record ∧
    headers req =
      [("Content-Type", "application/json"); ("Accept", "*/*");
       ("x-pvkey", pvkey); ("x-pubkey", pubkey); ("messageType", messageType)] ∧
    n = match http_backend req with
        | HttpOk status body =>
            {| emitted := [VResponse status body]; completion := Completed |}
        | HttpFail err => {| emitted := []; completion := Errored err |}
        end.
Proof.
  intros w result n.
  assert (result = (Return n, result.2)) as Hrun by (vm_compute; reflexivity).
  split; [exact Hrun|].
  exact (uploadSignAnnounce_only_posts Mock.uploader (Value "sk") (Value "pk")
           (Value "PLAIN") Mock.record w n result.2 Hrun).
Defined.

(** The keywords are left out and the metadata is [null]: the keywords are
    set all the same, the metadata is not. *)
Lemma uploadGenerateSign_query_parameters_witness :
  let call : HttpCall string :=
    {| call_url := baseUrl Mock.uploader +:+ "upload/generate-sign";
       call_body := BodyFormData [("file", Value "bytes of the file")];
       call_headers := [("Accept", "*/*"); ("x-pvkey", "sk"); ("x-pubkey", "pk")];
       call_params := [("keywords", IsUndefined); ("messageType", Value "PLAIN")];
       call_responseType := "json";
       call_observe := "response";
       call_reportProgress := true |} in
  uploadGenerateSign Mock.uploader (Value "sk") (Value "pk") (Value "PLAIN")
    (Value "bytes of the file") IsUndefined IsNull = Return call ∧
  is_absent (Value "sk") = false ∧ is_absent (Value "pk") = false ∧
  is_absent (Value "PLAIN") = false ∧
  nullable_is_null (Value "bytes of the file") = false ∧
  call_body call = BodyFormData [("file", Value "bytes of the file")] ∧
  call_params call =
    (if nullable_is_null (@IsUndefined string) then []
     else [("keywords", IsUndefined)])
    ++ (if nullable_is_null (@IsNull string) then [] else [("metadata", IsNull)])
    ++ [("messageType", Value "PLAIN")].
Proof.
  intros call.
  assert (uploadGenerateSign Mock.uploader (Value "sk") (Value "pk") (Value "PLAIN")
            (Value "bytes of the file") IsUndefined IsNull = Return call) as Hrun
    by reflexivity.
  split; [exact Hrun|].
  exact (uploadGenerateSign_query_parameters string Mock.uploader (Value "sk")
           (Value "pk") (Value "PLAIN") (Value "bytes of the file") IsUndefined IsNull
           call Hrun).
Defined.
End FurtherRuns.

Section RefusedRuns.
#[local] Existing Instance Mock.types.
#[local] Existing Instance Fixtures.refusing.

Lemma pipeline_delivers_transport_error_unwrapped_witness :
  let w := Mock.world_with Mock.text_request in
  let result :=
    call_and_subscribe (invoke OpUploadText Fixtures.uploader Mock.record) w in
  let n := {| emitted := []; completion := Errored Fixtures.failure |} in
  is_storage_only OpUploadText = false ∧
  result = (Return n, result.2) ∧
  ∃ req,
    http_requests (trace result.2) = http_requests (trace w) ++ [req] ∧
    ∀ err,
      http_backend req = HttpFail err →
      n = {| emitted := []; completion := Errored err |} ∧
      steps (trace result.2) = steps (trace w) ++ [StepUpload].
Proof.
  intros w result n.
  assert (result = (Return n, result.2)) as Hrun by (vm_compute; reflexivity).
  split; [reflexivity|]. split; [exact Hrun|].
  exact (pipeline_delivers_transport_error_unwrapped OpUploadText Fixtures.uploader
           Mock.record w n result.2 eq_refl Hrun).
Defined.

Lemma storage_only_failures_are_wrapped_witness :
  let w := Mock.world_with Mock.binary_request in
  let result :=
    call_and_subscribe (invoke OpUploadBinaryToIPFSOnly Fixtures.uploader Mock.record) w in
  let n :=
    {| emitted := [];
       completion := Errored (VError "Error" "wrapped: 503 Service Unavailable") |} in
  is_storage_only OpUploadBinaryToIPFSOnly = true ∧
  result = (Return n, result.2) ∧
  ∃ req,
    http_requests (trace result.2) = http_requests (trace w) ++ [req] ∧
    (∀ err,
       http_backend req = HttpFail err →
       n = {| emitted := []; completion := Errored (wrapError err) |}) ∧
    (∀ status body e,
       http_backend req = HttpOk status body →
       decode body = Throw e →
       n = {| emitted := []; completion := Errored (wrapError e) |}) ∧
    (∀ status body data e,
       http_backend req = HttpOk status body →
       decode body = Return data →
       getRootAsResourceHashMessage (new_ByteBuffer data) = Throw e →
       n = {| emitted := []; completion := Errored (wrapError e) |}) ∧
    (length (emitted n) ≤ 1)%nat.
Proof.
  intros w result n.
  assert (result = (Return n, result.2)) as Hrun by (vm_compute; reflexivity).
  split; [reflexivity|]. split; [exact Hrun|].
  exact (storage_only_failures_are_wrapped OpUploadBinaryToIPFSOnly Fixtures.uploader
           Mock.record w n result.2 eq_refl Hrun).
Defined.
End RefusedRuns.
